(** * salt.modules.mac_pkgutil: the macOS package adapter

    A shallow embedding of [salt/modules/mac_pkgutil.py] and the properties of
    its seven operations ([list_], [info], [is_installed], [install],
    [install_time], [forget], [version]).

    The module is glue around external collaborators (the command runner of
    [salt.utils.mac_utils], [os.path.exists], [urllib.parse.urlparse] and
    [time.localtime]).  They are kept abstract: every theorem quantifies over
    an arbitrary host and arbitrary collaborators.  Python exceptions are an
    explicit error result, and every collaborator call is appended to a call
    log so that "is not invoked" is a statement about that log. *)

From Stdlib Require Import ZArith Lia Ascii.
From stdpp Require Import base option list gmap strings.

Local Open Scope Z_scope.

(** ** Python strings

    A [str] is modelled as a [string]: a sequence of code points below 256. *)

Module Str.

(** Line boundaries of [str.splitlines]: LF, VT, FF, CR, FS, GS, RS and NEL.
    (U+2028 and U+2029 lie outside the modelled alphabet.) *)
Definition is_linebreak (c : ascii) : bool :=
  match c with
  | "010" | "011" | "012" | "013" | "028" | "029" | "030" | "133" => true
  | _ => false
  end%char.

(** [s.splitlines()]: the lines of [s] without their terminators.  CR LF is
    one terminator; a terminator at the very end opens no further line. *)
Fixpoint splitlines (s : string) : list string :=
  match s with
  | "" => []
  | String c rest =>
      if is_linebreak c then
        match c, rest with
        | "013"%char, String "010"%char rest' => "" :: splitlines rest'
        | _, _ => "" :: splitlines rest
        end
      else
        match splitlines rest with
        | [] => [String c ""]
        | line :: lines => String c line :: lines
        end
  end.

(** [s.split(sep)] for a one-character separator: cut at every occurrence;
    the result always has one more element than [s] has separators. *)
Fixpoint split (sep : ascii) (s : string) : list string :=
  match s with
  | "" => [""]
  | String c rest =>
      if decide (c = sep) then "" :: split sep rest
      else
        match split sep rest with
        | [] => [String c ""]
        | field :: fields => String c field :: fields
        end
  end.

(** The lines of a text of which the run [cur] has been read already:
    [cur] joins the first line still to come. *)
Definition resume (cur : string) (lines : list string) : list string :=
  match lines with
  | [] => [cur]
  | line :: lines' => (cur +:+ line) :: lines'
  end.

(** What is left to read after the line boundary [c]: a LF right after a
    CR belongs to the same boundary. *)
Definition after_break (c : ascii) (rest : string) : string :=
  match c, rest with
  | "013"%char, String "010"%char rest' => rest'
  | _, _ => rest
  end.

(** Whether some character of [s] satisfies [f]. *)
Fixpoint any (f : ascii -> bool) (s : string) : bool :=
  match s with
  | "" => false
  | String c rest => f c || any f rest
  end.

(** [s.count(c)] *)
Fixpoint count (c : ascii) (s : string) : nat :=
  match s with
  | "" => 0%nat
  | String c' rest => ((if decide (c' = c) then 1 else 0) + count c rest)%nat
  end.

(** The characters that [int] skips around a literal: the blanks of ASCII
    (tab, LF, VT, FF, CR, space) and, above 127, the two code points NEL and
    NBSP, which are turned into a space before the literal is read.  The
    separators FS, GS, RS and US (codes 28 to 31) are not skipped. *)
Definition is_space (c : ascii) : bool :=
  match c with
  | "009" | "010" | "011" | "012" | "013" | " " | "133" | "160" => true
  | _ => false
  end%char.

Fixpoint lstrip (s : string) : string :=
  match s with
  | String c rest => if is_space c then lstrip rest else s
  | "" => ""
  end.

Definition rstrip (s : string) : string := String.rev (lstrip (String.rev s)).

Definition strip (s : string) : string := rstrip (lstrip s).

(** The value of a decimal digit: the characters with codes 48 to 57. *)
Definition digit_of (c : ascii) : option Z :=
  let code := Z.of_nat (nat_of_ascii c) in
  if (48 <=? code) && (code <=? 57) then Some (code - 48) else None.

(** The digit part of a decimal literal: digits, with single underscores
    allowed between two digits.  [after_digit] tells whether the previous
    character was a digit. *)
Fixpoint digits_value (acc : Z) (after_digit : bool) (s : string) : option Z :=
  match s with
  | "" => if after_digit then Some acc else None
  | String c rest =>
      match digit_of c with
      | Some d => digits_value (10 * acc + d) true rest
      | None =>
          if decide (c = "_"%char) then
            if after_digit then digits_value acc false rest else None
          else None
      end
  end.

(** The number of decimal digits in [s]. *)
Fixpoint count_digits (s : string) : Z :=
  match s with
  | "" => 0
  | String c rest =>
      (match digit_of c with Some _ => 1 | None => 0 end) + count_digits rest
  end.

(** The default of [sys.int_info.default_max_str_digits]: a literal with more
    digits than this is refused with a [ValueError]. *)
Definition max_str_digits : Z := 4300.

(** The value of the digits of a literal, of which there are at most
    [max_str_digits]. *)
Definition literal (body : string) : option Z :=
  if max_str_digits <? count_digits body then None
  else digits_value 0 false body.

(** [int(s)] in base 10: surrounding whitespace is skipped, then an optional
    sign, then the digits.  [None] stands for the [ValueError]. *)
Definition parse_int (s : string) : option Z :=
  match strip s with
  | String "-" body => Z.opp <$> literal body
  | String "+" body => literal body
  | body => literal body
  end.

(** The character of the digit [d], for [0 <= d <= 9]. *)
Definition digit_char (d : Z) : ascii := ascii_of_nat (Z.to_nat (48 + d)).

Fixpoint decimal_go (fuel : nat) (n : Z) (acc : string) : string :=
  match fuel with
  | O => acc
  | S fuel' =>
      let acc' := String (digit_char (n mod 10)) acc in
      if n / 10 =? 0 then acc' else decimal_go fuel' (n / 10) acc'
  end.

(** Decimal digits of a natural number ([n >= 0]); the fuel exceeds the
    number of digits. *)
Definition decimal (n : Z) : string :=
  decimal_go (S (Z.to_nat (Z.log2 n))) n "".

(** [str(n)] for an integer. *)
Definition of_Z (n : Z) : string :=
  if n <? 0 then String "-" (decimal (- n)) else decimal n.

(** At least two digits, zero padded: C's [%02d], which the conversions
    [%m %d %H %M %S] apply to their field. *)
Definition two_digits (n : Z) : string :=
  let s := of_Z n in
  if (String.length s <? 2)%nat then String "0" s else s.

(** [matches pat s]: [s] has the shape [pat], where a [d] in [pat] stands
    for one decimal digit and any other character for itself. *)
Fixpoint matches (pat s : string) : bool :=
  match pat, s with
  | "", "" => true
  | String p pat', String c s' =>
      (if decide (p = "d"%char) then bool_decide (is_Some (digit_of c))
       else bool_decide (p = c))
      && matches pat' s'
  | _, _ => false
  end.

End Str.

(** ** Python values, exceptions and the effect monad *)

(** The [ValueError]s of the built-ins: that of [dict], "dictionary update
    sequence element #index has length len; 2 is required", and that of
    [int] on the given text (an invalid literal, or one with more digits than
    the limit). *)
Inductive value_error :=
| DictUpdateLength (index len : nat)
| InvalidIntLiteral (text : string).

Inductive exn :=
| SaltInvocationError (msg : string)
| CommandExecutionError (msg : string)
| ValueError (why : value_error)
| KeyError (key : string)
| OtherError (name : string).

Inductive result (A : Type) :=
| Ok (a : A)
| Raise (e : exn).
Arguments Ok {A} a.
Arguments Raise {A} e.

(** What [install_time] returns: an [int] or a [str]. *)
Inductive pyval :=
| PyInt (n : Z)
| PyStr (s : string).

(** [time.struct_time] *)
Record struct_time := {
  tm_year : Z; tm_mon : Z; tm_mday : Z;
  tm_hour : Z; tm_min : Z; tm_sec : Z;
  tm_wday : Z; tm_yday : Z; tm_isdst : Z
}.

(** The calls the module makes to its collaborators, in the order made. *)
Inductive call :=
| ExecuteReturnResult (cmd : string)
| ExecuteReturnSuccess (cmd : string)
| PathExists (path : string)
| UrlParse (source : string)
| LocalTime (seconds : Z).

(** The call that [list_] makes. *)
Definition listing : call := ExecuteReturnResult "pkgutil --pkgs".

(** The collaborators, over an arbitrary type of hosts.  Running a command may
    change the host, and returns its standard output (respectively a status)
    or raises; [os.path.exists] and [time.localtime] read the host;
    [uri_scheme source] is [urllib.parse.urlparse(source).scheme], or the
    error of the parse. *)
Class Collaborators (World : Type) := {
  execute_return_result : string -> World -> result string * World;
  execute_return_success : string -> World -> result bool * World;
  os_path_exists : string -> World -> bool;
  uri_scheme : string -> result string;
  localtime : Z -> World -> result struct_time
}.

Record state (World : Type) := State {
  host : World;
  calls : list call
}.
Arguments State {World} host calls.
Arguments host {World} s.
Arguments calls {World} s.

Definition M (World A : Type) : Type := state World -> result A * state World.

Definition ret {World A} (a : A) : M World A := fun st => (Ok a, st).

Definition raise {World A} (e : exn) : M World A := fun st => (Raise e, st).

Definition bind {World A B} (m : M World A) (k : A -> M World B) : M World B :=
  fun st =>
    match m st with
    | (Ok a, st') => k a st'
    | (Raise e, st') => (Raise e, st')
    end.

Notation "'let*' x ':=' m 'in' k" := (bind m (fun x => k))
  (at level 10, x name, m at level 100, k at level 200, only parsing).

Definition logged {World} (c : call) (st : state World) (h : World) : state World :=
  State h (calls st ++ [c]).

Section Calls.
Context `{Collaborators World}.

Definition run_result (cmd : string) : M World string := fun st =>
  let (r, h) := execute_return_result cmd (host st) in
  (r, logged (ExecuteReturnResult cmd) st h).

Definition run_success (cmd : string) : M World bool := fun st =>
  let (r, h) := execute_return_success cmd (host st) in
  (r, logged (ExecuteReturnSuccess cmd) st h).

Definition path_exists (path : string) : M World bool := fun st =>
  (Ok (os_path_exists path (host st)), logged (PathExists path) st (host st)).

Definition urlparse_scheme (source : string) : M World string := fun st =>
  (uri_scheme source, logged (UrlParse source) st (host st)).

Definition time_localtime (seconds : Z) : M World struct_time := fun st =>
  (localtime seconds (host st), logged (LocalTime seconds) st (host st)).
End Calls.

(** ** Built-ins used by the module *)

(** [dict(items)]: every item must have exactly two elements; a later value
    replaces an earlier one under the same key.  [index] counts the items
    consumed so far. *)
Fixpoint dict_update (index : nat) (items : list (list string))
    (d : gmap string string) : result (gmap string string) :=
  match items with
  | [] => Ok d
  | [k; v] :: items' => dict_update (S index) items' (<[k := v]> d)
  | item :: _ => Raise (ValueError (DictUpdateLength index (length item)))
  end.

Definition dict (items : list (list string)) : result (gmap string string) :=
  dict_update 0 items ∅.

(** [d[key]] *)
Definition getitem (d : gmap string string) (key : string) : result string :=
  match d !! key with
  | Some v => Ok v
  | None => Raise (KeyError key)
  end.

(** [int(s)] *)
Definition int (s : string) : result Z :=
  match Str.parse_int s with
  | Some n => Ok n
  | None => Raise (ValueError (InvalidIntLiteral s))
  end.

Definition lift {World A} (r : result A) : M World A := fun st => (r, st).

(** [time.strftime(fmt, t)] for the conversions [%Y %m %d %H %M %S]; any other
    character is copied. *)
Definition conversion (d : ascii) (t : struct_time) : string :=
  match d with
  | "Y" => Str.of_Z (tm_year t)
  | "m" => Str.two_digits (tm_mon t)
  | "d" => Str.two_digits (tm_mday t)
  | "H" => Str.two_digits (tm_hour t)
  | "M" => Str.two_digits (tm_min t)
  | "S" => Str.two_digits (tm_sec t)
  | _ => String "%" (String d "")
  end%char.

Fixpoint strftime (fmt : string) (t : struct_time) : string :=
  match fmt with
  | "" => ""
  | String c rest =>
      match c, rest with
      | "%"%char, String d rest' => conversion d t +:+ strftime rest' t
      | _, _ => String c (strftime rest t)
      end
  end.

(** ** The module: salt/modules/mac_pkgutil.py *)

Section Module.
Context `{Collaborators World}.

Definition list_ : M World (list string) :=
  let cmd := "pkgutil --pkgs" in
  let* out := run_result cmd in
  ret (Str.splitlines out).

Definition is_installed (package_id : string) : M World bool :=
  let* pkgs := list_ in
  ret (bool_decide (package_id ∈ pkgs)).

Definition info (package_id : string) : M World (gmap string string) :=
  let cmd := "pkgutil --pkg-info " +:+ package_id in
  let* installed := is_installed package_id in
  if installed then
    let* out := run_result cmd in
    lift (dict (Str.split ":" <$> Str.splitlines out))
  else
    let msg := "Package ID " +:+ package_id +:+ " is not installed" in
    raise (SaltInvocationError msg).

Definition _install_from_path (path : string) : M World bool :=
  let* found := path_exists path in
  if negb found then
    let msg := "File not found: " +:+ path in
    raise (SaltInvocationError msg)
  else
    let cmd := "installer -pkg " +:+ path +:+ " -target /" in
    run_success cmd.

Definition install (source package_id : string) : M World bool :=
  let* installed := is_installed package_id in
  if installed then ret true
  else
    let* scheme := urlparse_scheme source in
    if negb (bool_decide (scheme = "")) then
      let msg := "Unsupported scheme for source uri: " +:+ scheme in
      raise (SaltInvocationError msg)
    else
      let* _ := _install_from_path source in
      is_installed package_id.

(** [convert] is [None] by default; [None] and [False] are falsy. *)
Definition install_time (package_id : string) (convert : option bool)
    : M World pyval :=
  let time_fmt := "%Y-%m-%d %H:%M:%S" in
  let* pkginfo := info package_id in
  let* text := lift (getitem pkginfo "install-time") in
  let* install_datetime := lift (int text) in
  if negb (default false convert) then
    ret (PyInt install_datetime)
  else
    let* t := time_localtime install_datetime in
    ret (PyStr (strftime time_fmt t)).

Definition forget (package_id : string) : M World bool :=
  let cmd := "pkgutil --forget " +:+ package_id in
  let* _ := run_success cmd in
  let* installed := is_installed package_id in
  ret (negb installed).

Definition version (package_id : string) : M World string :=
  let* pkginfo := info package_id in
  lift (getitem pkginfo "version").
End Module.

(** ** The specification's vocabulary *)

Module Spec.

(** "an ordered sequence of non-empty lines": the maximal runs of characters
    between line boundaries, in order.  [cur] is the run read so far. *)
Fixpoint nonempty_lines_from (cur : string) (s : string) : list string :=
  match s with
  | "" => if decide (cur = "") then [] else [cur]
  | String c rest =>
      if Str.is_linebreak c then
        (if decide (cur = "") then [] else [cur]) ++ nonempty_lines_from "" rest
      else nonempty_lines_from (cur +:+ String c "") rest
  end.

Definition nonempty_lines (s : string) : list string :=
  nonempty_lines_from "" s.

(** "splitting at the first ':' into a key and a value": the text before
    the first colon, and everything after it. *)
Fixpoint partition_colon (line : string) : string * string :=
  match line with
  | "" => ("", "")
  | String c rest =>
      if decide (c = ":"%char) then ("", rest)
      else let (k, v) := partition_colon rest in (String c k, v)
  end.

(** "building a mapping": later pairs replace earlier ones. *)
Definition mapping_of (pairs : list (string * string)) : gmap string string :=
  foldl (fun d kv => <[kv.1 := kv.2]> d) ∅ pairs.

(** "the fixed pattern YYYY-MM-DD hh:mm:ss" *)
Definition is_timestamp (s : string) : bool :=
  Str.matches "dddd-dd-dd dd:dd:dd" s.

(** The ranges in which [time.localtime] reports the fields that the format
    prints, for a year of four digits. *)
Definition four_digit_year (t : struct_time) : Prop :=
  1000 <= tm_year t <= 9999 /\ 1 <= tm_mon t <= 12 /\ 1 <= tm_mday t <= 31 /\
  0 <= tm_hour t <= 23 /\ 0 <= tm_min t <= 59 /\ 0 <= tm_sec t <= 61.

End Spec.

(** ** Statements of the specification, as worded *)

Section Worded.
Context `{Collaborators World}.

(** "install fails with invalid-argument regardless of p's state" *)
Definition install_rejects_scheme_in_any_state
    (source package_id : string) (st : state World) : Prop :=
  forall scheme, uri_scheme source = Ok scheme -> scheme <> "" ->
    exists msg st', install source package_id st = (Raise (SaltInvocationError msg), st').

(** "info parses each line at the first ':' and returns the mapping" *)
Definition info_splits_at_first_colon
    (package_id : string) (st : state World) : Prop :=
  forall out h1 text h2,
    execute_return_result "pkgutil --pkgs" (host st) = (Ok out, h1) ->
    package_id ∈ Str.splitlines out ->
    execute_return_result ("pkgutil --pkg-info " +:+ package_id) h1 = (Ok text, h2) ->
    (info package_id st).1 =
      Ok (Spec.mapping_of (Spec.partition_colon <$> Str.splitlines text)).

(** "list returns exactly the non-empty lines; no empty line ever appears" *)
Definition list_returns_nonempty_lines (st : state World) : Prop :=
  forall out h1,
    execute_return_result "pkgutil --pkgs" (host st) = (Ok out, h1) ->
    (list_ st).1 = Ok (Spec.nonempty_lines out) /\
    forall pkgs, (list_ st).1 = Ok pkgs -> "" ∉ pkgs.
End Worded.

(** ** The lines of a text, empty ones included *)

(** [terminator t rest]: [t] is one line boundary in front of [rest], that is
    CR LF, or a single boundary character other than a CR in front of a
    LF. *)
Inductive terminator : string -> string -> Prop :=
| terminator_crlf rest :
    terminator (String "013" (String "010" "")) rest
| terminator_char c rest :
    Str.is_linebreak c = true ->
    ~ (c = "013"%char /\ exists rest', rest = String "010" rest') ->
    terminator (String c "") rest.

(** [lines_of text lines]: [text] is [lines] written one after the other,
    each followed by a terminator, which only a last line that is not empty
    may lack; no line holds a line boundary.  An empty line is an empty
    string of [lines]. *)
Inductive lines_of : string -> list string -> Prop :=
| lines_none : lines_of "" []
| lines_last line :
    line <> "" ->
    Str.any Str.is_linebreak line = false ->
    lines_of line [line]
| lines_more line t rest lines :
    Str.any Str.is_linebreak line = false ->
    terminator t rest ->
    lines_of rest lines ->
    lines_of (line +:+ t +:+ rest) (line :: lines).

(** Whether a text has an empty line: a line boundary at its very start or
    right after another boundary, a LF right after a CR being part of the
    boundary of the CR.  [fresh] tells that a line starts at this point,
    [after_cr] that the character before was a CR that ended a line. *)
Fixpoint has_empty_line_from (fresh after_cr : bool) (s : string) : bool :=
  match s with
  | "" => false
  | String c rest =>
      if Str.is_linebreak c then
        if after_cr && bool_decide (c = "010"%char) then
          has_empty_line_from true false rest
        else if fresh then true
        else has_empty_line_from true (bool_decide (c = "013"%char)) rest
      else has_empty_line_from false false rest
  end.

Definition has_empty_line (s : string) : bool :=
  has_empty_line_from true false s.

(** ** A scripted host

    A host whose commands answer from a script: each captured-output command
    consumes the next entry of [stdouts], each status command the next entry
    of [statuses]; [files] are the paths that exist. *)

Record script := Script {
  stdouts : list (result string);
  statuses : list (result bool);
  files : list string;
  clock : Z -> result struct_time
}.

Module Urllib.
Definition is_alpha (c : ascii) : bool :=
  let n := nat_of_ascii c in
  ((65 <=? n) && (n <=? 90) || (97 <=? n) && (n <=? 122))%nat.

Definition is_scheme_char (c : ascii) : bool :=
  is_alpha c || bool_decide (is_Some (Str.digit_of c))
  || bool_decide (c = "+"%char) || bool_decide (c = "-"%char)
  || bool_decide (c = "."%char).

Definition lower (c : ascii) : ascii :=
  let n := nat_of_ascii c in
  if ((65 <=? n) && (n <=? 90))%nat then ascii_of_nat (n + 32) else c.

(** The text before the first colon, lowered, when it consists of scheme
    characters only. *)
Fixpoint scheme_prefix (s : string) : option string :=
  match s with
  | "" => None
  | String c rest =>
      if decide (c = ":"%char) then Some ""
      else if is_scheme_char c then String (lower c) <$> scheme_prefix rest
      else None
  end.

(** The scheme detection of the scripted host: a prefix of scheme characters
    that starts with a letter and ends at the first colon, lowered; empty
    otherwise.  It stands in for [urlsplit] on sources as the examples use
    them; what [urlsplit] does to leading blanks, to tab, CR and LF, and to
    brackets in the network location (where it can raise) is not part of
    it. *)
Definition scheme (url : string) : string :=
  match url with
  | String c _ => if is_alpha c then default "" (scheme_prefix url) else ""
  | "" => ""
  end.
End Urllib.

Definition exhausted {A} : result A := Raise (CommandExecutionError "Command Failed").

#[export] Instance scripted : Collaborators script := {|
  execute_return_result _ w :=
    match stdouts w with
    | r :: rest => (r, Script rest (statuses w) (files w) (clock w))
    | [] => (exhausted, w)
    end;
  execute_return_success _ w :=
    match statuses w with
    | r :: rest => (r, Script (stdouts w) rest (files w) (clock w))
    | [] => (exhausted, w)
    end;
  os_path_exists path w := bool_decide (path ∈ files w);
  uri_scheme source := Ok (Urllib.scheme source);
  localtime seconds w := clock w seconds
|}.

(** Hosts for the examples. *)
Module Demo.
Definition LF : string := String "010" "".

(** Two receipts on the host. *)
Definition receipts : string :=
  "com.apple.pkg.Core" +:+ LF +:+ "com.example.tool" +:+ LF.

(** The same listing once [com.example.new] has been installed. *)
Definition receipts_after_install : string :=
  receipts +:+ "com.example.new" +:+ LF.

(** The same listing once [com.example.tool] has been forgotten. *)
Definition receipts_after_forget : string :=
  "com.apple.pkg.Core" +:+ LF.

(** A listing with a blank line in it. *)
Definition receipts_with_blank_line : string :=
  "com.apple.pkg.Core" +:+ LF +:+ LF +:+ "com.example.tool" +:+ LF.

Definition tool_info : string :=
  "package-id: com.example.tool" +:+ LF +:+
  "version: 1.2.3" +:+ LF +:+
  "volume: /" +:+ LF +:+
  "location: /" +:+ LF +:+
  "install-time: 1500000000" +:+ LF.

(** Package info of which one value holds a colon itself. *)
Definition tool_info_with_colon : string :=
  "package-id: com.example.tool" +:+ LF +:+
  "location: Volumes/a:b" +:+ LF.

(** Package info whose install time is not a number. *)
Definition tool_info_bad_time : string :=
  "version: 1.2.3" +:+ LF +:+ "install-time: yesterday" +:+ LF.

(** 2017-07-14 02:40:00, a Friday. *)
Definition instant : struct_time :=
  {| tm_year := 2017; tm_mon := 7; tm_mday := 14;
     tm_hour := 2; tm_min := 40; tm_sec := 0;
     tm_wday := 4; tm_yday := 195; tm_isdst := 0 |}.

(** A host on UTC that knows that one instant. *)
Definition clock (seconds : Z) : result struct_time :=
  if seconds =? 1500000000 then Ok instant
  else Raise (OtherError "OverflowError").

Definition host_with (outputs : list (result string)) : script :=
  Script outputs [Ok true] ["/tmp/new.pkg"] clock.

(** The same host, whose next status command reports a failure. *)
Definition host_reporting_failure (outputs : list (result string)) : script :=
  Script outputs [Ok false] ["/tmp/new.pkg"] clock.

Definition fresh (w : script) : state script := State w [].
End Demo.

(** ** Vocabulary for the further properties *)

(** The value that a key ends up with when the pairs are stored one after the
    other: that of the last pair with the key. *)
Fixpoint last_value (key : string) (pairs : list (string * string)) : option string :=
  match pairs with
  | [] => None
  | (k, v) :: rest =>
      match last_value key rest with
      | Some v' => Some v'
      | None => if decide (k = key) then Some v else None
      end
  end.

(** The key and value texts of the lines of a package-info output. *)
Definition entries (text : string) : list (string * string) :=
  Spec.partition_colon <$> Str.splitlines text.

(** A failure of the command runner. *)
Definition command_failed : exn := CommandExecutionError "Command Failed".

(** A text of whitespace only (possibly empty). *)
Definition blank (s : string) : bool :=
  negb (Str.any (fun c => negb (Str.is_space c)) s).

(** Further hosts for the examples. *)
Module Cases.
(** Package info that gives the version twice. *)
Definition info_with_two_versions : string :=
  "version: 1.0" +:+ Demo.LF +:+ "volume: /" +:+ Demo.LF +:+
  "version: 2.0" +:+ Demo.LF.

(** Package info with neither a version nor an install time. *)
Definition info_with_volume_only : string :=
  "volume: /" +:+ Demo.LF.

(** A host whose listing command fails. *)
Definition host_without_listing : script :=
  Demo.host_with [Raise command_failed].

(** A host with the two receipts whose status command fails. *)
Definition host_failing_action : script :=
  Script [Ok Demo.receipts; Ok Demo.receipts] [Raise command_failed]
    ["/tmp/new.pkg"] Demo.clock.

(** A package id with a line feed at its end. *)
Definition id_with_line_feed : string := "com.example.tool" +:+ Demo.LF.

(** The state after the listing and the package-info command, on a fresh
    host that has no further output. *)
Definition after_info (package_id : string) : state script :=
  State (Demo.host_with [])
    [listing; ExecuteReturnResult ("pkgutil --pkg-info " +:+ package_id)].
End Cases.

(** ** The install time, as worded *)

Section WordedTime.
Context `{Collaborators World}.

(** "installTime(p, convert=true) returns a local-time string in the fixed
    pattern YYYY-MM-DD hh:mm:ss" *)
Definition install_time_gives_timestamp
    (package_id : string) (st : state World) : Prop :=
  forall d st2 text n t,
    info package_id st = (Ok d, st2) ->
    d !! "install-time" = Some text ->
    int text = Ok n ->
    localtime n (host st2) = Ok t ->
    exists s st3,
      install_time package_id (Some true) st = (Ok (PyStr s), st3) /\
      Spec.is_timestamp s = true.
End WordedTime.

(** A host whose package was installed in the year 10000. *)
Module Future.
Definition tool_info : string :=
  "version: 1.2.3" +:+ Demo.LF +:+ "install-time: 253402300800" +:+ Demo.LF.

(** 10000-01-01 00:00:00, a Saturday: one second after 9999-12-31 23:59:59,
    which is 253402300799 seconds after the epoch. *)
Definition instant : struct_time :=
  {| tm_year := 10000; tm_mon := 1; tm_mday := 1;
     tm_hour := 0; tm_min := 0; tm_sec := 0;
     tm_wday := 5; tm_yday := 1; tm_isdst := 0 |}.

(** A host on UTC that knows that instant. *)
Definition clock (seconds : Z) : result struct_time :=
  if seconds =? 253402300800 then Ok instant
  else Raise (OtherError "OverflowError").

Definition host_with (outputs : list (result string)) : script :=
  Script outputs [] [] clock.

(** A text of [n] digits. *)
Fixpoint ones (n : nat) : string :=
  match n with
  | O => ""
  | S n' => String "1" (ones n')
  end.
End Future.

(** ** The built-ins on small inputs *)

Example splitlines_keeps_blank_line :
  Str.splitlines ("a" +:+ String "013" Demo.LF +:+ Demo.LF +:+ "b" +:+ Demo.LF)
  = ["a"; ""; "b"].
Proof. reflexivity. Qed.

Example split_cuts_at_every_colon :
  Str.split ":" "location: Volumes/a:b" = ["location"; " Volumes/a"; "b"].
Proof. reflexivity. Qed.

Example partition_colon_cuts_once :
  Spec.partition_colon "location: Volumes/a:b" = ("location", " Volumes/a:b").
Proof. reflexivity. Qed.

Example int_accepts :
  int " 1500000000" = Ok 1500000000 /\ int "-12" = Ok (-12) /\
  int "+1_000" = Ok 1000 /\ int "007" = Ok 7.
Proof. repeat split; reflexivity. Qed.

Example int_rejects :
  int "" = Raise (ValueError (InvalidIntLiteral "")) /\
  int "12:30" = Raise (ValueError (InvalidIntLiteral "12:30")) /\
  int "1__0" = Raise (ValueError (InvalidIntLiteral "1__0")) /\
  int "- 1" = Raise (ValueError (InvalidIntLiteral "- 1")).
Proof. repeat split; reflexivity. Qed.

Example int_rejects_separator_padding :
  int (String "031" "1500000000")
  = Raise (ValueError (InvalidIntLiteral (String "031" "1500000000"))) /\
  int (String "160" "1500000000") = Ok 1500000000.
Proof. split; reflexivity. Qed.

Example int_digit_limit :
  (exists n, int (Future.ones 4300) = Ok n) /\
  int (Future.ones 4301) = Raise (ValueError (InvalidIntLiteral (Future.ones 4301))).
Proof. split; [eexists|]; vm_compute; reflexivity. Qed.

Example strftime_instant :
  strftime "%Y-%m-%d %H:%M:%S" Demo.instant = "2017-07-14 02:40:00".
Proof. reflexivity. Qed.

Example dict_last_value_wins :
  dict [["version"; " 1"]; ["version"; " 2"]] = Ok {[ "version" := " 2" ]}.
Proof. reflexivity. Qed.

Example scheme_of_sources :
  Urllib.scheme "http://example.com/pkg" = "http" /\
  Urllib.scheme "FTP://host/a.pkg" = "ftp" /\
  Urllib.scheme "/tmp/new.pkg" = "" /\
  Urllib.scheme "/tmp/a:b.pkg" = "".
Proof. repeat split; reflexivity. Qed.

(** ** Properties *)

Section Properties.
Context `{Collaborators World}.
Implicit Types (st : state World) (h : World) (p source : string).

(** *** One step of each operation *)

Lemma bind_ok {A B} (m : M World A) (k : A -> M World B) st a st' :
  m st = (Ok a, st') -> bind m k st = k a st'.
Proof. intros E. unfold bind. now rewrite E. Qed.

Lemma bind_raise {A B} (m : M World A) (k : A -> M World B) st e st' :
  m st = (Raise e, st') -> bind m k st = (Raise e, st').
Proof. intros E. unfold bind. now rewrite E. Qed.

Lemma run_result_eq cmd st r h :
  execute_return_result cmd (host st) = (r, h) ->
  run_result cmd st = (r, logged (ExecuteReturnResult cmd) st h).
Proof. intros E. unfold run_result. now rewrite E. Qed.

Lemma run_success_eq cmd st r h :
  execute_return_success cmd (host st) = (r, h) ->
  run_success cmd st = (r, logged (ExecuteReturnSuccess cmd) st h).
Proof. intros E. unfold run_success. now rewrite E. Qed.

Lemma list_ok st out h1 :
  execute_return_result "pkgutil --pkgs" (host st) = (Ok out, h1) ->
  list_ st = (Ok (Str.splitlines out), logged listing st h1).
Proof.
  intros E. unfold list_. now rewrite (bind_ok _ _ _ _ _ (run_result_eq _ _ _ _ E)).
Qed.

Lemma list_raise st e h1 :
  execute_return_result "pkgutil --pkgs" (host st) = (Raise e, h1) ->
  list_ st = (Raise e, logged listing st h1).
Proof.
  intros E. unfold list_. now rewrite (bind_raise _ _ _ _ _ (run_result_eq _ _ _ _ E)).
Qed.

Lemma is_installed_ok p st out h1 :
  execute_return_result "pkgutil --pkgs" (host st) = (Ok out, h1) ->
  is_installed p st
  = (Ok (bool_decide (p ∈ Str.splitlines out)), logged listing st h1).
Proof.
  intros E. unfold is_installed. now rewrite (bind_ok _ _ _ _ _ (list_ok _ _ _ E)).
Qed.

Lemma is_installed_true p st out h1 :
  execute_return_result "pkgutil --pkgs" (host st) = (Ok out, h1) ->
  p ∈ Str.splitlines out ->
  is_installed p st = (Ok true, logged listing st h1).
Proof.
  intros E Hin. rewrite (is_installed_ok _ _ _ _ E). now rewrite bool_decide_eq_true_2.
Qed.

Lemma is_installed_false p st out h1 :
  execute_return_result "pkgutil --pkgs" (host st) = (Ok out, h1) ->
  p ∉ Str.splitlines out ->
  is_installed p st = (Ok false, logged listing st h1).
Proof.
  intros E Hin. rewrite (is_installed_ok _ _ _ _ E). now rewrite bool_decide_eq_false_2.
Qed.

(** *** install *)

(** C5: when [p] is already installed, [install source p] returns [True]
    after the one listing call that establishes it: the log gains neither a
    parse of [source], nor a file-system check, nor an installer run, and
    the outcome is the same for every [source]. *)
Theorem install_already_installed source p st out h1 :
  execute_return_result "pkgutil --pkgs" (host st) = (Ok out, h1) ->
  p ∈ Str.splitlines out ->
  install source p st = (Ok true, State h1 (calls st ++ [listing])).
Proof.
  intros E Hin. unfold install.
  now rewrite (bind_ok _ _ _ _ _ (is_installed_true _ _ _ _ E Hin)).
Qed.

(** C1, as amended: when [p] is not installed and the scheme of [source] is
    not empty, [install source p] fails with an invalid-argument error that
    names the scheme, before any file-system check or installer run. *)
Theorem install_rejects_scheme source p st out h1 scheme :
  execute_return_result "pkgutil --pkgs" (host st) = (Ok out, h1) ->
  p ∉ Str.splitlines out ->
  uri_scheme source = Ok scheme ->
  scheme <> "" ->
  install source p st
  = (Raise (SaltInvocationError ("Unsupported scheme for source uri: " +:+ scheme)),
     State h1 (calls st ++ [listing; UrlParse source])).
Proof.
  intros E Hin Hs Hne. unfold install.
  rewrite (bind_ok _ _ _ _ _ (is_installed_false _ _ _ _ E Hin)).
  unfold bind, urlparse_scheme, raise, logged. cbn. rewrite Hs.
  rewrite bool_decide_eq_false_2 by assumption. cbn.
  now rewrite <- app_assoc.
Qed.

(** C4: for [p] not installed and a [source] without scheme: a missing path
    fails with an invalid-argument error and no installer run; an existing
    path is handed to [installer -pkg source -target /], and whatever status
    [b] the installer reports, the result is the membership of [p] in the
    listing taken afterwards. *)
Theorem install_from_local_path source p st out h1 :
  execute_return_result "pkgutil --pkgs" (host st) = (Ok out, h1) ->
  p ∉ Str.splitlines out ->
  uri_scheme source = Ok "" ->
  (os_path_exists source h1 = false ->
     install source p st
     = (Raise (SaltInvocationError ("File not found: " +:+ source)),
        State h1 (calls st ++ [listing; UrlParse source; PathExists source])))
  /\
  (os_path_exists source h1 = true ->
     forall b h2 out' h3,
       execute_return_success ("installer -pkg " +:+ source +:+ " -target /") h1
         = (Ok b, h2) ->
       execute_return_result "pkgutil --pkgs" h2 = (Ok out', h3) ->
       install source p st
       = (Ok (bool_decide (p ∈ Str.splitlines out')),
          State h3 (calls st ++
            [listing; UrlParse source; PathExists source;
             ExecuteReturnSuccess ("installer -pkg " +:+ source +:+ " -target /");
             listing]))).
Proof.
  intros E Hin Hs.
  assert (Hstart :
    install source p st
    = bind (_install_from_path source) (fun _ => is_installed p)
        (State h1 (calls st ++ [listing; UrlParse source]))).
  { unfold install at 1.
    rewrite (bind_ok _ _ _ _ _ (is_installed_false _ _ _ _ E Hin)).
    unfold bind at 1. unfold urlparse_scheme, logged. cbn. rewrite Hs. cbn.
    now rewrite <- app_assoc. }
  split.
  - intros Hno. rewrite Hstart. unfold bind, _install_from_path, path_exists, raise, logged.
    cbn. rewrite Hno. cbn. now rewrite <- app_assoc.
  - intros Hyes b h2 out' h3 Hrun Hlist. rewrite Hstart.
    unfold bind at 1. unfold _install_from_path, bind, path_exists, logged.
    cbn. rewrite Hyes. cbn. unfold run_success. cbn. rewrite Hrun.
    unfold logged. cbn.
    rewrite (is_installed_ok p _ out' h3) by assumption.
    unfold logged. cbn. now rewrite <- !app_assoc.
Qed.

(** *** is_installed *)

(** C9: [is_installed p] is the membership test on what [list_] returns:
    whenever the listing returns a sequence the answer is a boolean, true
    exactly for a member and false for an absent id; and it raises nothing
    of its own, its only failures being those of the listing. *)
Theorem is_installed_is_membership p st :
  (forall pkgs st', list_ st = (Ok pkgs, st') ->
     exists b, is_installed p st = (Ok b, st') /\ (b = true <-> p ∈ pkgs)) /\
  (forall e st', is_installed p st = (Raise e, st') -> list_ st = (Raise e, st')).
Proof.
  unfold is_installed, bind. split.
  - intros pkgs st' E. rewrite E. eexists. split; [reflexivity|].
    apply bool_decide_eq_true.
  - intros e st'. destruct (list_ st) as [[pkgs|e'] st'']; cbn; [discriminate|].
    now intros [= -> ->].
Qed.

(** *** info, version, install_time on a package that is not installed *)

(** C6: for [p] not installed, [info p] fails with the invalid-argument
    error whose message is "Package ID p is not installed"; only the listing
    is run (the log gains no package-info command); [version] and
    [install_time] fail in the same way. *)
Theorem info_not_installed p st out h1 :
  execute_return_result "pkgutil --pkgs" (host st) = (Ok out, h1) ->
  p ∉ Str.splitlines out ->
  let e := SaltInvocationError ("Package ID " +:+ p +:+ " is not installed") in
  let st1 := State h1 (calls st ++ [listing]) in
  info p st = (Raise e, st1) /\
  version p st = (Raise e, st1) /\
  forall convert, install_time p convert st = (Raise e, st1).
Proof.
  intros E Hin e st1.
  assert (Hinfo : info p st = (Raise e, st1)).
  { unfold info. now rewrite (bind_ok _ _ _ _ _ (is_installed_false _ _ _ _ E Hin)). }
  split; [exact Hinfo|]. split.
  - unfold version. now rewrite (bind_raise _ _ _ _ _ Hinfo).
  - intros convert. unfold install_time. now rewrite (bind_raise _ _ _ _ _ Hinfo).
Qed.

(** *** forget *)

(** C7: [forget p] runs [pkgutil --forget p] and, whatever status the
    command reports, answers with the negation of the membership of [p] in
    the listing taken afterwards; every error it ends with is one raised by
    one of the two commands; and when the command changes nothing and [p]
    was unknown, the answer is [True]. *)
Theorem forget_reports_absence p st :
  let cmd := "pkgutil --forget " +:+ p in
  (forall b h1 out h2,
     execute_return_success cmd (host st) = (Ok b, h1) ->
     execute_return_result "pkgutil --pkgs" h1 = (Ok out, h2) ->
     forget p st
     = (Ok (negb (bool_decide (p ∈ Str.splitlines out))),
        State h2 (calls st ++ [ExecuteReturnSuccess cmd; listing]))) /\
  (forall e st', forget p st = (Raise e, st') ->
     (execute_return_success cmd (host st)).1 = Raise e \/
     exists b h1, execute_return_success cmd (host st) = (Ok b, h1) /\
                  (execute_return_result "pkgutil --pkgs" h1).1 = Raise e) /\
  (forall b out h2,
     execute_return_success cmd (host st) = (Ok b, host st) ->
     execute_return_result "pkgutil --pkgs" (host st) = (Ok out, h2) ->
     p ∉ Str.splitlines out ->
     (forget p st).1 = Ok true).
Proof.
  intros cmd.
  assert (Hrun : forall b h1 out h2,
     execute_return_success cmd (host st) = (Ok b, h1) ->
     execute_return_result "pkgutil --pkgs" h1 = (Ok out, h2) ->
     forget p st
     = (Ok (negb (bool_decide (p ∈ Str.splitlines out))),
        State h2 (calls st ++ [ExecuteReturnSuccess cmd; listing]))).
  { intros b h1 out h2 Hcmd Hlist. unfold forget. fold cmd.
    rewrite (bind_ok _ _ _ _ _ (run_success_eq _ _ _ _ Hcmd)).
    rewrite (bind_ok _ _ _ _ _
               (is_installed_ok p (logged (ExecuteReturnSuccess cmd) st h1) out h2 Hlist)).
    unfold ret, logged. cbn. now rewrite <- app_assoc. }
  split; [exact Hrun|]. split.
  - intros e st'. unfold forget. fold cmd. unfold bind at 1, run_success.
    destruct (execute_return_success cmd (host st)) as [[b|e1] h1] eqn:Hcmd; cbn.
    + unfold bind, is_installed, list_, bind, run_result. cbn.
      destruct (execute_return_result "pkgutil --pkgs" h1) as [[out|e2] h2] eqn:Hl;
        cbn; [discriminate|].
      intros [= -> <-]. right. exists b, h1. now rewrite Hl.
    + intros [= -> <-]. now left.
  - intros b out h2 Hcmd Hlist Hnot. rewrite (Hrun b _ out h2 Hcmd Hlist). cbn.
    now rewrite bool_decide_eq_false_2.
Qed.

(** *** info on an installed package *)

Lemma split_length sep line :
  length (Str.split sep line) = S (Str.count sep line).
Proof.
  induction line as [|c rest IH]; [reflexivity|]. cbn.
  destruct (decide (c = sep)); cbn; [now rewrite IH|].
  destruct (Str.split sep rest); cbn in *; lia.
Qed.

Lemma split_no_separator sep line :
  Str.count sep line = 0%nat -> Str.split sep line = [line].
Proof.
  induction line as [|c rest IH]; [reflexivity|]. cbn.
  destruct (decide (c = sep)); [discriminate|]. cbn.
  intros E. now rewrite (IH E).
Qed.

Lemma split_one_colon line :
  Str.count ":" line = 1%nat ->
  Str.split ":" line = [(Spec.partition_colon line).1; (Spec.partition_colon line).2].
Proof.
  induction line as [|c rest IH]; [discriminate|]. cbn.
  destruct (decide (c = ":"%char)); cbn.
  - intros [= E]. now rewrite (split_no_separator _ _ E).
  - intros E. rewrite (IH E). now destruct (Spec.partition_colon rest).
Qed.

Lemma dict_update_well_formed lines index d :
  Forall (fun line => Str.count ":" line = 1%nat) lines ->
  dict_update index (Str.split ":" <$> lines) d
  = Ok (foldl (fun d kv => <[kv.1 := kv.2]> d) d (Spec.partition_colon <$> lines)).
Proof.
  intros Hall. revert index d.
  induction Hall as [|line lines Hline _ IH]; intros index d; [reflexivity|].
  cbn. rewrite (split_one_colon _ Hline). apply IH.
Qed.

Lemma dict_update_malformed items index d :
  Exists (fun item => length item <> 2%nat) items ->
  exists j n, n <> 2%nat /\
    dict_update index items d = Raise (ValueError (DictUpdateLength j n)).
Proof.
  revert index d. induction items as [|item items IH]; intros index d Hex.
  - inversion Hex.
  - destruct item as [|k [|v [|x item]]]; cbn.
    + exists index, 0%nat. now split.
    + exists index, 1%nat. now split.
    + apply IH. inversion Hex as [? ? Hk|]; [now cbn in Hk | assumption].
    + exists index, (S (S (S (length item)))). split; [lia | reflexivity].
Qed.

Lemma info_installed p st out h1 text h2 :
  execute_return_result "pkgutil --pkgs" (host st) = (Ok out, h1) ->
  p ∈ Str.splitlines out ->
  execute_return_result ("pkgutil --pkg-info " +:+ p) h1 = (Ok text, h2) ->
  info p st
  = (dict (Str.split ":" <$> Str.splitlines text),
     State h2 (calls st ++ [listing; ExecuteReturnResult ("pkgutil --pkg-info " +:+ p)])).
Proof.
  intros E Hin Hinfo. unfold info.
  rewrite (bind_ok _ _ _ _ _ (is_installed_true _ _ _ _ E Hin)).
  rewrite (bind_ok _ _ _ _ _
             (run_result_eq ("pkgutil --pkg-info " +:+ p) (logged listing st h1) _ _ Hinfo)).
  unfold lift, logged. cbn. now rewrite <- app_assoc.
Qed.

(** C2, as amended: for an installed [p] whose package-info output has
    exactly one ':' on every line, [info p] returns the mapping from the
    text before the colon to the text after it, a later line replacing an
    earlier one with the same key. *)
Theorem info_parses_key_value_lines p st out h1 text h2 :
  execute_return_result "pkgutil --pkgs" (host st) = (Ok out, h1) ->
  p ∈ Str.splitlines out ->
  execute_return_result ("pkgutil --pkg-info " +:+ p) h1 = (Ok text, h2) ->
  Forall (fun line => Str.count ":" line = 1%nat) (Str.splitlines text) ->
  info p st
  = (Ok (Spec.mapping_of (Spec.partition_colon <$> Str.splitlines text)),
     State h2 (calls st ++ [listing; ExecuteReturnResult ("pkgutil --pkg-info " +:+ p)])).
Proof.
  intros E Hin Hinfo Hall. rewrite (info_installed _ _ _ _ _ _ E Hin Hinfo).
  unfold dict. now rewrite (dict_update_well_formed _ _ _ Hall).
Qed.

(** C10: for an installed [p], a line of the package-info output whose
    number of ':' is not one makes [info p] raise the [ValueError] of
    [dict] (an element whose length is not 2) instead of returning a
    mapping; [version] and [install_time] raise the same error. *)
Theorem info_raises_on_malformed_line p st out h1 text h2 line :
  execute_return_result "pkgutil --pkgs" (host st) = (Ok out, h1) ->
  p ∈ Str.splitlines out ->
  execute_return_result ("pkgutil --pkg-info " +:+ p) h1 = (Ok text, h2) ->
  line ∈ Str.splitlines text ->
  Str.count ":" line <> 1%nat ->
  let st2 :=
    State h2 (calls st ++ [listing; ExecuteReturnResult ("pkgutil --pkg-info " +:+ p)]) in
  exists j n, n <> 2%nat /\
    info p st = (Raise (ValueError (DictUpdateLength j n)), st2) /\
    version p st = (Raise (ValueError (DictUpdateLength j n)), st2) /\
    forall convert,
      install_time p convert st = (Raise (ValueError (DictUpdateLength j n)), st2).
Proof.
  intros E Hin Hinfo Hline Hcount st2.
  destruct (dict_update_malformed (Str.split ":" <$> Str.splitlines text) 0 ∅)
    as (j & n & Hn & Hdict).
  { apply Exists_exists. exists (Str.split ":" line). split.
    - now apply list_elem_of_fmap_2.
    - rewrite split_length. lia. }
  pose proof (info_installed _ _ _ _ _ _ E Hin Hinfo) as Hi.
  unfold dict in Hi. rewrite Hdict in Hi.
  exists j, n. split; [exact Hn|]. split; [exact Hi|]. split.
  - unfold version. now rewrite (bind_raise _ _ _ _ _ Hi).
  - intros convert. unfold install_time. now rewrite (bind_raise _ _ _ _ _ Hi).
Qed.

(** *** list_ *)

Lemma app_cons c s t : String c s +:+ t = String c (s +:+ t).
Proof. reflexivity. Qed.

Lemma app_nil_r s : s +:+ "" = s.
Proof. induction s as [|c s IH]; [reflexivity|]. now rewrite app_cons, IH. Qed.

Lemma app_snoc_assoc cur c line : (cur +:+ String c "") +:+ line = cur +:+ String c line.
Proof. induction cur as [|a cur IH]; [reflexivity|]. now rewrite !app_cons, IH. Qed.

Lemma splitlines_break c rest :
  Str.is_linebreak c = true ->
  Str.splitlines (String c rest) = "" :: Str.splitlines (Str.after_break c rest).
Proof.
  intros Hc. cbn [Str.splitlines]. rewrite Hc. unfold Str.after_break.
  destruct c as [[] [] [] [] [] [] [] []]; try reflexivity.
  destruct rest as [|[[] [] [] [] [] [] [] []] rest]; reflexivity.
Qed.

Lemma splitlines_other c rest :
  Str.is_linebreak c = false ->
  Str.splitlines (String c rest) = Str.resume (String c "") (Str.splitlines rest).
Proof.
  intros Hc. cbn [Str.splitlines]. rewrite Hc.
  now destruct (Str.splitlines rest).
Qed.

Lemma after_break_cases c c' s :
  Str.after_break c (String c' s) = String c' s \/
  (c' = "010"%char /\ Str.after_break c (String c' s) = s).
Proof.
  unfold Str.after_break.
  destruct c as [[] [] [] [] [] [] [] []]; try (now left).
  destruct c' as [[] [] [] [] [] [] [] []]; try (now left).
  now right.
Qed.

(** Induction on strings that gives the hypothesis for the tail and for the
    tail of the tail, as the CR LF case needs. *)
Lemma string_pair_ind (P : string -> Prop) :
  P "" ->
  (forall c, P (String c "")) ->
  (forall c c' s, P s -> P (String c' s) -> P (String c (String c' s))) ->
  forall s, P s.
Proof.
  intros H0 H1 H2 s.
  assert (Hboth : P s /\ forall c, P (String c s)).
  { induction s as [|c' s [IHs IHc]]; [now split|].
    split; [apply IHc|]. intros c. now apply H2. }
  exact (proj1 Hboth).
Qed.

Local Abbreviation nonempty := (fun line : string => line <> "").

Lemma filter_resume_nil lines :
  filter nonempty (Str.resume "" lines) = filter nonempty lines.
Proof. destruct lines; reflexivity. Qed.

Lemma filter_single cur :
  filter nonempty [cur] = if decide (cur = "") then [] else [cur].
Proof.
  destruct (decide (cur = "")) as [->|Hne]; [reflexivity|].
  now rewrite filter_cons_True by assumption.
Qed.

Lemma filter_no_empty (lines : list string) :
  "" ∉ lines -> filter nonempty lines = lines.
Proof.
  induction lines as [|line lines IH]; [reflexivity|]. intros Hno.
  rewrite filter_cons_True.
  - f_equal. apply IH. intros Hin. apply Hno. now right.
  - intros ->. apply Hno. now left.
Qed.

Lemma resume_snoc cur c lines :
  Str.resume (cur +:+ String c "") lines
  = Str.resume cur (Str.resume (String c "") lines).
Proof.
  destruct lines as [|line lines]; cbn [Str.resume]; [reflexivity|].
  now rewrite app_snoc_assoc.
Qed.

Lemma nonempty_lines_break c s cur :
  Str.is_linebreak c = true ->
  Spec.nonempty_lines_from "" s = filter nonempty (Str.splitlines (Str.after_break c s)) ->
  Spec.nonempty_lines_from cur (String c s)
  = filter nonempty (Str.resume cur (Str.splitlines (String c s))).
Proof.
  intros Hc Hrest. cbn [Spec.nonempty_lines_from]. rewrite Hc, Hrest.
  rewrite (splitlines_break _ _ Hc). cbn [Str.resume]. rewrite app_nil_r.
  change (cur :: ?l) with ([cur] ++ l). now rewrite filter_app, filter_single.
Qed.

Lemma nonempty_lines_other c s cur :
  Str.is_linebreak c = false ->
  Spec.nonempty_lines_from cur (String c s)
  = Spec.nonempty_lines_from (cur +:+ String c "") s.
Proof. intros Hc. cbn [Spec.nonempty_lines_from]. now rewrite Hc. Qed.

Lemma nonempty_lines_from_splitlines s :
  forall cur, Spec.nonempty_lines_from cur s
              = filter nonempty (Str.resume cur (Str.splitlines s)).
Proof.
  induction s as [|c|c c' s IHs IHc] using string_pair_ind; intros cur.
  - cbn [Spec.nonempty_lines_from Str.splitlines Str.resume].
    now rewrite filter_single.
  - destruct (Str.is_linebreak c) eqn:Hc.
    + apply nonempty_lines_break; [assumption|].
      now destruct c as [[] [] [] [] [] [] [] []].
    + cbn [Spec.nonempty_lines_from Str.splitlines]. rewrite Hc.
      cbn [Spec.nonempty_lines_from Str.resume].
      now rewrite filter_single.
  - destruct (Str.is_linebreak c) eqn:Hc.
    + apply nonempty_lines_break; [assumption|].
      destruct (after_break_cases c c' s) as [->|[-> ->]].
      * now rewrite IHc, filter_resume_nil.
      * change (Spec.nonempty_lines_from "" (String "010" s))
          with (Spec.nonempty_lines_from "" s).
        now rewrite IHs, filter_resume_nil.
    + rewrite (nonempty_lines_other _ _ _ Hc), IHc.
      now rewrite (splitlines_other c _ Hc), resume_snoc.
Qed.

Lemma splitlines_no_linebreak s :
  Forall (fun line => Str.any Str.is_linebreak line = false) (Str.splitlines s).
Proof.
  induction s as [|c|c c' s IHs IHc] using string_pair_ind.
  - constructor.
  - destruct (Str.is_linebreak c) eqn:Hc.
    + rewrite (splitlines_break _ _ Hc).
      destruct c as [[] [] [] [] [] [] [] []]; repeat constructor.
    + rewrite (splitlines_other _ _ Hc). repeat constructor. cbn. now rewrite Hc.
  - destruct (Str.is_linebreak c) eqn:Hc.
    + rewrite (splitlines_break _ _ Hc). constructor; [reflexivity|].
      now destruct (after_break_cases c c' s) as [->|[-> ->]].
    + rewrite (splitlines_other _ _ Hc).
      destruct (Str.splitlines (String c' s)) as [|line lines].
      * repeat constructor. cbn. now rewrite Hc.
      * inversion IHc as [|? ? Hline Hlines]; subst.
        constructor; [|assumption].
        change (String c "" +:+ line) with (String c line). cbn. now rewrite Hc.
Qed.

Lemma after_break_spec c rest :
  (c = "013"%char /\ exists rest', rest = String "010" rest' /\
                                   Str.after_break c rest = rest') \/
  (~ (c = "013"%char /\ exists rest', rest = String "010" rest') /\
   Str.after_break c rest = rest).
Proof.
  destruct (decide (c = "013"%char)) as [->|Hc].
  - destruct rest as [|c' rest'].
    + right. split; [|reflexivity]. intros [_ [r Hr]]. discriminate Hr.
    + destruct (decide (c' = "010"%char)) as [->|Hc'].
      * left. split; [reflexivity|]. now exists rest'.
      * right. split.
        -- intros [_ [r Hr]]. injection Hr as Hr _. contradiction.
        -- unfold Str.after_break.
           destruct c' as [[] [] [] [] [] [] [] []]; try reflexivity. contradiction.
  - right. split; [now intros [? _]|]. unfold Str.after_break.
    destruct c as [[] [] [] [] [] [] [] []]; try reflexivity. contradiction.
Qed.

Lemma lines_of_front c text lines :
  Str.is_linebreak c = false ->
  lines_of text lines ->
  lines_of (String c text) (Str.resume (String c "") lines).
Proof.
  intros Hc Hlines. destruct Hlines as [|line Hne Hline|line t rest lines Hline Ht Hrest].
  - apply lines_last; [discriminate|]. cbn. now rewrite Hc.
  - apply lines_last; [discriminate|]. cbn. now rewrite Hc, Hline.
  - cbn [Str.resume]. change (String c "" +:+ line) with (String c line).
    change (String c (line +:+ t +:+ rest)) with (String c line +:+ t +:+ rest).
    apply lines_more; [|assumption..]. cbn. now rewrite Hc, Hline.
Qed.

Lemma lines_of_break c text :
  Str.is_linebreak c = true ->
  lines_of (Str.after_break c text) (Str.splitlines (Str.after_break c text)) ->
  lines_of (String c text) (Str.splitlines (String c text)).
Proof.
  intros Hc Hrest. rewrite (splitlines_break _ _ Hc).
  destruct (after_break_spec c text) as [(-> & rest' & -> & Hafter)|[Hno Hafter]];
    rewrite Hafter in Hrest.
  - change (String "013" (String "010" rest'))
      with ("" +:+ String "013" (String "010" "") +:+ rest').
    rewrite Hafter. apply lines_more; [reflexivity | constructor | assumption].
  - change (String c text) with ("" +:+ String c "" +:+ text) at 1.
    rewrite Hafter. apply lines_more; [reflexivity | now constructor | assumption].
Qed.

(** The lines that [splitlines] returns are the lines of the text. *)
Lemma splitlines_lines s : lines_of s (Str.splitlines s).
Proof.
  induction s as [|c|c c' s IHs IHc] using string_pair_ind.
  - constructor.
  - destruct (Str.is_linebreak c) eqn:Hc.
    + apply lines_of_break; [assumption|].
      destruct (after_break_spec c "") as [(_ & r & Hr & _)|[_ ->]];
        [discriminate Hr | constructor].
    + rewrite (splitlines_other _ _ Hc). apply lines_of_front; [assumption | constructor].
  - destruct (Str.is_linebreak c) eqn:Hc.
    + apply lines_of_break; [assumption|].
      destruct (after_break_spec c (String c' s)) as [(_ & r & Hr & ->)|[_ ->]];
        [|assumption].
      now injection Hr as _ <-.
    + rewrite (splitlines_other _ _ Hc). now apply lines_of_front.
Qed.

Lemma splitlines_one_line line :
  line <> "" -> Str.any Str.is_linebreak line = false -> Str.splitlines line = [line].
Proof.
  induction line as [|c line IH]; [contradiction|]. intros _ Hline.
  cbn in Hline. apply orb_false_iff in Hline as [Hc Hline].
  rewrite (splitlines_other _ _ Hc).
  destruct line as [|c' line]; [reflexivity|].
  now rewrite IH.
Qed.

Lemma splitlines_first_line line t rest :
  Str.any Str.is_linebreak line = false ->
  terminator t rest ->
  Str.splitlines (line +:+ t +:+ rest) = line :: Str.splitlines rest.
Proof.
  intros Hline Ht. induction line as [|c line IH].
  - change ("" +:+ t +:+ rest) with (t +:+ rest).
    destruct Ht as [rest|c rest Hc Hno].
    + reflexivity.
    + change (String c "" +:+ rest) with (String c rest).
      rewrite (splitlines_break _ _ Hc).
      destruct (after_break_spec c rest) as [(Hcr & r & Hr & _)|[_ ->]]; [|reflexivity].
      exfalso. apply Hno. split; [assumption | now exists r].
  - cbn in Hline. apply orb_false_iff in Hline as [Hc Hline].
    rewrite app_cons, (splitlines_other _ _ Hc), (IH Hline). reflexivity.
Qed.

(** They are the only ones. *)
Lemma lines_of_splitlines s lines : lines_of s lines -> lines = Str.splitlines s.
Proof.
  induction 1 as [|line Hne Hline|line t rest lines Hline Ht _ IH].
  - reflexivity.
  - now rewrite splitlines_one_line.
  - now rewrite (splitlines_first_line _ _ _ Hline Ht), IH.
Qed.

Lemma after_break_other c rest :
  c <> "013"%char -> Str.after_break c rest = rest.
Proof.
  intros Hc. destruct (after_break_spec c rest) as [(Hcr & _)|[_ Hafter]];
    [contradiction | assumption].
Qed.

Lemma empty_first_of_resume c lines :
  "" ∈ Str.resume (String c "") lines <-> "" ∈ tail lines.
Proof.
  destruct lines as [|line lines]; cbn [Str.resume tail].
  - split; intros Hin.
    + apply elem_of_cons in Hin as [Hin|Hin]; [discriminate Hin | exact Hin].
    + now apply elem_of_nil in Hin.
  - change (String c "" +:+ line) with (String c line). split; intros Hin.
    + apply elem_of_cons in Hin as [Hin|Hin]; [discriminate Hin | exact Hin].
    + now right.
Qed.

Lemma tail_of_resume c (lines : list string) :
  tail (Str.resume (String c "") lines) = tail lines.
Proof. now destruct lines. Qed.

(** An empty string among the lines of [splitlines] tells an empty line of
    the text, and only that. *)
Lemma empty_line_scan s :
  (has_empty_line_from true false s = true <-> "" ∈ Str.splitlines s) /\
  (has_empty_line_from false false s = true <-> "" ∈ tail (Str.splitlines s)) /\
  (has_empty_line_from true true s = true
   <-> "" ∈ Str.splitlines (Str.after_break "013" s)).
Proof.
  induction s as [|c s (IHfresh & IHinside & IHcr)].
  - cbn. repeat split; intros Hin; try discriminate Hin; now apply elem_of_nil in Hin.
  - cbn [has_empty_line_from]. destruct (Str.is_linebreak c) eqn:Hc.
    + assert (Hfirst : "" ∈ Str.splitlines (String c s))
        by (rewrite (splitlines_break _ _ Hc); now left).
      split; [|split].
      * cbn. now split.
      * cbn [andb]. rewrite (splitlines_break _ _ Hc). cbn [tail].
        destruct (decide (c = "013"%char)) as [->|Hcr].
        -- exact IHcr.
        -- rewrite bool_decide_eq_false_2 by assumption.
           now rewrite (after_break_other _ _ Hcr).
      * cbn [andb]. destruct (decide (c = "010"%char)) as [->|Hlf].
        -- exact IHfresh.
        -- rewrite bool_decide_eq_false_2 by assumption.
           assert (Hsame : Str.after_break "013" (String c s) = String c s).
           { destruct (after_break_spec "013" (String c s))
               as [(_ & r & Hr & _)|[_ Hafter]]; [|exact Hafter].
             injection Hr as Hr _. contradiction. }
           rewrite Hsame. now split.
    + assert (Hscan : has_empty_line_from false false s = true
                      <-> "" ∈ Str.splitlines (String c s)).
      { rewrite (splitlines_other _ _ Hc), empty_first_of_resume. exact IHinside. }
      split; [exact Hscan|]. split.
      * rewrite (splitlines_other _ _ Hc), tail_of_resume. exact IHinside.
      * assert (Hsame : Str.after_break "013" (String c s) = String c s).
        { destruct (after_break_spec "013" (String c s))
            as [(_ & r & Hr & _)|[_ Hafter]]; [|exact Hafter].
          injection Hr as Hr _. subst c. discriminate Hc. }
        rewrite Hsame. exact Hscan.
Qed.

(** C3, as amended: [list_] returns exactly the lines of the listing
    command's standard output, in their order: the text between one line
    boundary and the next, free of line terminators, an empty line of the
    output being an empty string of the result (and an empty string of the
    result an empty line of the output).  Its non-empty members are exactly
    the non-empty lines of the output, in order, so that the result is the
    sequence of non-empty lines whenever the output has no empty line. *)
Theorem list_returns_lines st out h1 :
  execute_return_result "pkgutil --pkgs" (host st) = (Ok out, h1) ->
  list_ st = (Ok (Str.splitlines out), State h1 (calls st ++ [listing])) /\
  lines_of out (Str.splitlines out) /\
  (forall lines, lines_of out lines -> lines = Str.splitlines out) /\
  ("" ∈ Str.splitlines out <-> has_empty_line out = true) /\
  Forall (fun line => Str.any Str.is_linebreak line = false) (Str.splitlines out) /\
  filter (fun line : string => line <> "") (Str.splitlines out) = Spec.nonempty_lines out /\
  ("" ∉ Str.splitlines out -> Str.splitlines out = Spec.nonempty_lines out).
Proof.
  intros E. split; [exact (list_ok _ _ _ E)|].
  split; [apply splitlines_lines|].
  split; [apply lines_of_splitlines|].
  split; [symmetry; exact (proj1 (empty_line_scan out))|].
  split; [apply splitlines_no_linebreak|].
  assert (Hf : filter (fun line : string => line <> "") (Str.splitlines out)
               = Spec.nonempty_lines out).
  { unfold Spec.nonempty_lines.
    rewrite (nonempty_lines_from_splitlines out "").
    now rewrite filter_resume_nil. }
  split; [exact Hf|].
  intros Hno. rewrite <- Hf. symmetry. now apply filter_no_empty.
Qed.

(** *** install_time *)

Lemma matches_app pat1 pat2 s1 s2 :
  Str.matches pat1 s1 = true -> Str.matches pat2 s2 = true ->
  Str.matches (pat1 +:+ pat2) (s1 +:+ s2) = true.
Proof.
  revert s1. induction pat1 as [|c pat1 IH]; intros [|a s1]; cbn; try discriminate.
  - now intros _.
  - intros [Hc Hrest]%andb_true_iff Hpat2. rewrite !app_cons.
    cbn [Str.matches]. rewrite Hc. cbn. now apply IH.
Qed.

Lemma matches_literal c pat s :
  c <> "d"%char -> Str.matches pat s = true ->
  Str.matches (String c pat) (String c s) = true.
Proof.
  intros Hc Hm. cbn [Str.matches]. destruct (decide (c = "d"%char)); [contradiction|].
  now rewrite bool_decide_eq_true_2.
Qed.

(** A boolean property checked on every integer of a finite range. *)
Lemma checked_on_range (f : Z -> bool) (lo hi : Z) :
  forallb (fun k => f (lo + Z.of_nat k)) (seq 0 (Z.to_nat (hi - lo + 1))) = true ->
  forall z, lo <= z <= hi -> f z = true.
Proof.
  intros Hall z Hz. rewrite forallb_forall in Hall.
  replace z with (lo + Z.of_nat (Z.to_nat (z - lo))) by lia.
  apply Hall. apply in_seq. lia.
Qed.

Lemma year_has_four_digits y :
  1000 <= y <= 9999 -> Str.matches "dddd" (Str.of_Z y) = true.
Proof.
  intros Hy.
  apply (checked_on_range (fun z => Str.matches "dddd" (Str.of_Z z)) 1000 9999);
    [now vm_compute | lia].
Qed.

Lemma field_has_two_digits n :
  0 <= n <= 99 -> Str.matches "dd" (Str.two_digits n) = true.
Proof.
  intros Hn.
  apply (checked_on_range (fun z => Str.matches "dd" (Str.two_digits z)) 0 99);
    [now vm_compute | lia].
Qed.

Lemma strftime_timestamp t :
  Spec.four_digit_year t ->
  Spec.is_timestamp (strftime "%Y-%m-%d %H:%M:%S" t) = true.
Proof.
  intros (Hy & Hm & Hd & HH & HM & HS).
  change (strftime "%Y-%m-%d %H:%M:%S" t)
    with (Str.of_Z (tm_year t) +:+ String "-" (
          Str.two_digits (tm_mon t) +:+ String "-" (
          Str.two_digits (tm_mday t) +:+ String " " (
          Str.two_digits (tm_hour t) +:+ String ":" (
          Str.two_digits (tm_min t) +:+ String ":" (
          Str.two_digits (tm_sec t) +:+ ""))))))%char.
  unfold Spec.is_timestamp.
  change "dddd-dd-dd dd:dd:dd"
    with ("dddd" +:+ String "-" ("dd" +:+ String "-" ("dd" +:+ String " " (
          "dd" +:+ String ":" ("dd" +:+ String ":" ("dd" +:+ ""))))))%char.
  repeat first
    [ apply matches_app
    | apply matches_literal; [discriminate|]
    | apply year_has_four_digits; lia
    | apply field_has_two_digits; lia
    | reflexivity ].
Qed.

(** [int] reads back the decimal digits of a natural number. *)
Lemma digit_of_digit_char d : 0 <= d <= 9 -> Str.digit_of (Str.digit_char d) = Some d.
Proof.
  intros Hd.
  assert (Hcases : d = 0 \/ d = 1 \/ d = 2 \/ d = 3 \/ d = 4 \/
                   d = 5 \/ d = 6 \/ d = 7 \/ d = 8 \/ d = 9) by lia.
  repeat destruct Hcases as [->|Hcases]; try reflexivity. now subst.
Qed.

Lemma digits_value_last_digit n acc after rest :
  0 <= n < 10 ->
  Str.digits_value acc after (String (Str.digit_char (n mod 10)) rest)
  = Str.digits_value (acc * 10 ^ 1 + n) true rest.
Proof.
  intros Hn. rewrite Z.mod_small by assumption. cbn [Str.digits_value].
  rewrite digit_of_digit_char by lia. f_equal. lia.
Qed.

Lemma decimal_go_step fuel n rest :
  Str.decimal_go (S fuel) n rest
  = if n / 10 =? 0 then String (Str.digit_char (n mod 10)) rest
    else Str.decimal_go fuel (n / 10) (String (Str.digit_char (n mod 10)) rest).
Proof. reflexivity. Qed.

Lemma digits_value_decimal_go fuel : forall n acc after rest,
  0 <= n < 2 ^ Z.of_nat (S fuel) ->
  exists k, 0 <= k /\
    Str.digits_value acc after (Str.decimal_go (S fuel) n rest)
    = Str.digits_value (acc * 10 ^ k + n) true rest.
Proof.
  induction fuel as [|fuel IH]; intros n acc after rest Hn.
  - exists 1. split; [lia|]. rewrite decimal_go_step.
    change (2 ^ Z.of_nat 1) with 2 in Hn.
    rewrite (Z.div_small n 10) by lia. cbn [Z.eqb].
    apply digits_value_last_digit. lia.
  - rewrite decimal_go_step. destruct (n / 10 =? 0) eqn:Hq.
    + apply Z.eqb_eq in Hq. exists 1. split; [lia|].
      apply digits_value_last_digit.
      pose proof (Z.div_mod n 10 ltac:(lia)).
      pose proof (Z.mod_pos_bound n 10 ltac:(lia)). lia.
    + apply Z.eqb_neq in Hq.
      assert (Hq' : 0 <= n / 10 < 2 ^ Z.of_nat (S fuel)).
      { split; [apply Z.div_pos; lia|]. apply Z.div_lt_upper_bound; [lia|].
        rewrite (Nat2Z.inj_succ (S fuel)), Z.pow_succ_r in Hn by lia. lia. }
      destruct (IH (n / 10) acc after (String (Str.digit_char (n mod 10)) rest) Hq')
        as (k & Hk & Hgo).
      exists (k + 1). split; [lia|]. rewrite Hgo. cbn [Str.digits_value].
      rewrite digit_of_digit_char by (pose proof (Z.mod_pos_bound n 10); lia).
      f_equal. rewrite Z.pow_add_r, Z.pow_1_r by lia.
      pose proof (Z.div_mod n 10 ltac:(lia)). lia.
Qed.

Lemma digits_value_decimal n :
  0 <= n -> Str.digits_value 0 false (Str.decimal n) = Some n.
Proof.
  intros Hn. unfold Str.decimal.
  destruct (digits_value_decimal_go (Z.to_nat (Z.log2 n)) n 0 false "") as (k & _ & ->).
  - split; [assumption|]. rewrite Nat2Z.inj_succ, Z2Nat.id by apply Z.log2_nonneg.
    destruct (Z.eq_dec n 0) as [->|Hpos]; [reflexivity|].
    apply Z.log2_spec. lia.
  - reflexivity.
Qed.

(** C8, as amended: for a package whose parsed info has an [install-time]
    entry: when [int] reads the entry as the integer [n], [install_time]
    without conversion returns [n], and with conversion it asks the host for
    the local time of [n] and, when the host gives it, returns it formatted
    by [%Y-%m-%d %H:%M:%S], which has the shape YYYY-MM-DD hh:mm:ss when the
    local year has four digits (a failure of the local-time lookup is passed
    on); when [int] does not read the entry as an integer, [install_time]
    raises the [ValueError] of [int], whatever [convert] is. *)
Theorem install_time_result p st d st2 text :
  info p st = (Ok d, st2) ->
  d !! "install-time" = Some text ->
  (forall n, Str.parse_int text = Some n ->
     install_time p None st = (Ok (PyInt n), st2) /\
     install_time p (Some false) st = (Ok (PyInt n), st2) /\
     (forall t, localtime n (host st2) = Ok t ->
        install_time p (Some true) st
        = (Ok (PyStr (strftime "%Y-%m-%d %H:%M:%S" t)),
           State (host st2) (calls st2 ++ [LocalTime n])) /\
        (Spec.four_digit_year t ->
         Spec.is_timestamp (strftime "%Y-%m-%d %H:%M:%S" t) = true)) /\
     (forall e, localtime n (host st2) = Raise e ->
        install_time p (Some true) st
        = (Raise e, State (host st2) (calls st2 ++ [LocalTime n])))) /\
  (Str.parse_int text = None ->
     forall convert,
       install_time p convert st = (Raise (ValueError (InvalidIntLiteral text)), st2)).
Proof.
  intros Hinfo Hkey.
  assert (Hentry : forall convert,
    install_time p convert st
    = bind (lift (int text))
        (fun n => if negb (default false convert) then ret (PyInt n)
                  else bind (time_localtime n)
                         (fun t => ret (PyStr (strftime "%Y-%m-%d %H:%M:%S" t)))) st2).
  { intros convert. unfold install_time.
    rewrite (bind_ok _ _ _ _ _ Hinfo).
    unfold bind at 1, lift at 1, getitem. now rewrite Hkey. }
  split.
  - intros n Hn.
    assert (Hint : lift (World := World) (int text) st2 = (Ok n, st2))
      by (unfold lift, int; now rewrite Hn).
    split; [now rewrite Hentry, (bind_ok _ _ _ _ _ Hint)|].
    split; [now rewrite Hentry, (bind_ok _ _ _ _ _ Hint)|].
    split.
    + intros t Ht. split; [|apply strftime_timestamp].
      rewrite Hentry, (bind_ok _ _ _ _ _ Hint). cbn.
      unfold bind, time_localtime. now rewrite Ht.
    + intros e He. rewrite Hentry, (bind_ok _ _ _ _ _ Hint). cbn.
      unfold bind, time_localtime. now rewrite He.
  - intros Hn convert. rewrite Hentry.
    apply bind_raise. unfold lift, int. now rewrite Hn.
Qed.
End Properties.

(** ** The theorems at work on scripted hosts *)

Lemma install_already_installed_witness :
  install "http://example.com/pkg" "com.example.tool"
    (Demo.fresh (Demo.host_with [Ok Demo.receipts]))
  = (Ok true, State (Demo.host_with []) [listing]).
Proof.
  apply (install_already_installed (World := script)
           "http://example.com/pkg" "com.example.tool"
           (Demo.fresh (Demo.host_with [Ok Demo.receipts])) Demo.receipts
           (Demo.host_with [])).
  - reflexivity.
  - refine (bool_decide_unpack _ _). vm_compute. exact I.
Defined.

Lemma install_rejects_scheme_witness :
  install "http://example.com/pkg" "com.example.new"
    (Demo.fresh (Demo.host_with [Ok Demo.receipts]))
  = (Raise (SaltInvocationError "Unsupported scheme for source uri: http"),
     State (Demo.host_with []) [listing; UrlParse "http://example.com/pkg"]).
Proof.
  apply (install_rejects_scheme (World := script)
           "http://example.com/pkg" "com.example.new"
           (Demo.fresh (Demo.host_with [Ok Demo.receipts])) Demo.receipts
           (Demo.host_with []) "http").
  - reflexivity.
  - refine (proj1 (bool_decide_eq_false _) _). vm_compute. reflexivity.
  - reflexivity.
  - discriminate.
Defined.

(** C1 as worded fails: with the package already installed, the http source
    is never looked at and [install] returns [True]. *)
Lemma install_rejects_scheme_in_any_state_fails :
  ~ install_rejects_scheme_in_any_state "http://example.com/pkg" "com.example.tool"
      (Demo.fresh (Demo.host_with [Ok Demo.receipts])).
Proof.
  intros Hclaim.
  destruct (Hclaim "http" eq_refl ltac:(discriminate)) as (msg & st' & Hrun).
  vm_compute in Hrun. discriminate Hrun.
Qed.

Lemma install_from_local_path_witness :
  install "/tmp/missing.pkg" "com.example.new"
    (Demo.fresh (Demo.host_with [Ok Demo.receipts]))
  = (Raise (SaltInvocationError "File not found: /tmp/missing.pkg"),
     State (Demo.host_with [])
       [listing; UrlParse "/tmp/missing.pkg"; PathExists "/tmp/missing.pkg"])
  /\
  install "/tmp/new.pkg" "com.example.new"
    (Demo.fresh (Demo.host_reporting_failure
                   [Ok Demo.receipts; Ok Demo.receipts_after_install]))
  = (Ok true,
     State (Script [] [] ["/tmp/new.pkg"] Demo.clock)
       [listing; UrlParse "/tmp/new.pkg"; PathExists "/tmp/new.pkg";
        ExecuteReturnSuccess "installer -pkg /tmp/new.pkg -target /"; listing]).
Proof.
  split.
  - apply (install_from_local_path (World := script)
             "/tmp/missing.pkg" "com.example.new"
             (Demo.fresh (Demo.host_with [Ok Demo.receipts])) Demo.receipts
             (Demo.host_with [])).
    + reflexivity.
    + refine (proj1 (bool_decide_eq_false _) _). vm_compute. reflexivity.
    + reflexivity.
    + reflexivity.
  - refine (proj2 (install_from_local_path (World := script)
             "/tmp/new.pkg" "com.example.new"
             (Demo.fresh (Demo.host_reporting_failure
                            [Ok Demo.receipts; Ok Demo.receipts_after_install]))
             Demo.receipts
             (Demo.host_reporting_failure [Ok Demo.receipts_after_install]) _ _ _)
           _ false
           (Script [Ok Demo.receipts_after_install] [] ["/tmp/new.pkg"] Demo.clock)
           Demo.receipts_after_install
           (Script [] [] ["/tmp/new.pkg"] Demo.clock) _ _).
    + reflexivity.
    + refine (proj1 (bool_decide_eq_false _) _). vm_compute. reflexivity.
    + reflexivity.
    + reflexivity.
    + reflexivity.
    + reflexivity.
Defined.

Lemma is_installed_is_membership_witness :
  is_installed "com.example.tool" (Demo.fresh (Demo.host_with [Ok Demo.receipts]))
  = (Ok true, State (Demo.host_with []) [listing]) /\
  is_installed "com.example.new" (Demo.fresh (Demo.host_with [Ok Demo.receipts]))
  = (Ok false, State (Demo.host_with []) [listing]).
Proof.
  split.
  - destruct (proj1 (is_installed_is_membership (World := script) "com.example.tool"
                       (Demo.fresh (Demo.host_with [Ok Demo.receipts])))
                (Str.splitlines Demo.receipts) (State (Demo.host_with []) [listing]))
      as (b & Hrun & Hb); [reflexivity|].
    rewrite Hrun. f_equal. f_equal. apply Hb.
    refine (bool_decide_unpack _ _). vm_compute. exact I.
  - destruct (proj1 (is_installed_is_membership (World := script) "com.example.new"
                       (Demo.fresh (Demo.host_with [Ok Demo.receipts])))
                (Str.splitlines Demo.receipts) (State (Demo.host_with []) [listing]))
      as (b & Hrun & Hb); [reflexivity|].
    rewrite Hrun. f_equal. f_equal. destruct b; [|reflexivity].
    exfalso. refine (proj1 (bool_decide_eq_false _) _ (proj1 Hb eq_refl)).
    vm_compute. reflexivity.
Defined.

Lemma info_not_installed_witness :
  info "com.example.new" (Demo.fresh (Demo.host_with [Ok Demo.receipts; Ok Demo.tool_info]))
  = (Raise (SaltInvocationError "Package ID com.example.new is not installed"),
     State (Demo.host_with [Ok Demo.tool_info]) [listing]).
Proof.
  apply (info_not_installed (World := script) "com.example.new"
           (Demo.fresh (Demo.host_with [Ok Demo.receipts; Ok Demo.tool_info]))
           Demo.receipts (Demo.host_with [Ok Demo.tool_info])).
  - reflexivity.
  - refine (proj1 (bool_decide_eq_false _) _). vm_compute. reflexivity.
Defined.

Lemma forget_reports_absence_witness :
  forget "com.example.tool" (Demo.fresh (Demo.host_with [Ok Demo.receipts_after_forget]))
  = (Ok true,
     State (Script [] [] ["/tmp/new.pkg"] Demo.clock)
       [ExecuteReturnSuccess "pkgutil --forget com.example.tool"; listing]).
Proof.
  refine (proj1 (forget_reports_absence (World := script) "com.example.tool"
                   (Demo.fresh (Demo.host_with [Ok Demo.receipts_after_forget])))
            true (Script [Ok Demo.receipts_after_forget] [] ["/tmp/new.pkg"] Demo.clock)
            Demo.receipts_after_forget
            (Script [] [] ["/tmp/new.pkg"] Demo.clock) _ _).
  - reflexivity.
  - reflexivity.
Defined.

Lemma info_parses_key_value_lines_witness :
  (info "com.example.tool"
     (Demo.fresh (Demo.host_with [Ok Demo.receipts; Ok Demo.tool_info]))).1
  = Ok (Spec.mapping_of
          [("package-id", " com.example.tool"); ("version", " 1.2.3");
           ("volume", " /"); ("location", " /"); ("install-time", " 1500000000")]).
Proof.
  rewrite (info_parses_key_value_lines (World := script) "com.example.tool"
             (Demo.fresh (Demo.host_with [Ok Demo.receipts; Ok Demo.tool_info]))
             Demo.receipts (Demo.host_with [Ok Demo.tool_info])
             Demo.tool_info (Demo.host_with [])).
  - reflexivity.
  - reflexivity.
  - refine (bool_decide_unpack _ _). vm_compute. exact I.
  - reflexivity.
  - refine (bool_decide_unpack _ _). vm_compute. exact I.
Defined.

(** C2 as worded fails: a value with a colon of its own is not cut at the
    first colon; [dict] gets three fields for the line and raises. *)
Lemma info_splits_at_first_colon_fails :
  ~ info_splits_at_first_colon "com.example.tool"
      (Demo.fresh (Demo.host_with [Ok Demo.receipts; Ok Demo.tool_info_with_colon])).
Proof.
  intros Hclaim.
  specialize (Hclaim Demo.receipts (Demo.host_with [Ok Demo.tool_info_with_colon])
                Demo.tool_info_with_colon (Demo.host_with [])).
  assert (Hin : "com.example.tool" ∈ Str.splitlines Demo.receipts)
    by (refine (bool_decide_unpack _ _); vm_compute; exact I).
  specialize (Hclaim ltac:(reflexivity) Hin ltac:(reflexivity)).
  assert (Hrun : (info "com.example.tool"
            (Demo.fresh (Demo.host_with [Ok Demo.receipts; Ok Demo.tool_info_with_colon]))).1
          = Raise (ValueError (DictUpdateLength 1 3))) by reflexivity.
  rewrite Hrun in Hclaim. discriminate Hclaim.
Qed.

Lemma info_raises_on_malformed_line_witness :
  exists j n, n <> 2%nat /\
    info "com.example.tool"
      (Demo.fresh (Demo.host_with [Ok Demo.receipts; Ok Demo.tool_info_with_colon]))
    = (Raise (ValueError (DictUpdateLength j n)),
       State (Demo.host_with [])
         [listing; ExecuteReturnResult "pkgutil --pkg-info com.example.tool"]).
Proof.
  destruct (info_raises_on_malformed_line (World := script) "com.example.tool"
              (Demo.fresh (Demo.host_with [Ok Demo.receipts; Ok Demo.tool_info_with_colon]))
              Demo.receipts (Demo.host_with [Ok Demo.tool_info_with_colon])
              Demo.tool_info_with_colon (Demo.host_with [])
              "location: Volumes/a:b")
    as (j & n & Hn & Hinfo & _).
  - reflexivity.
  - refine (bool_decide_unpack _ _). vm_compute. exact I.
  - reflexivity.
  - refine (bool_decide_unpack _ _). vm_compute. exact I.
  - vm_compute. discriminate.
  - exists j, n. split; [exact Hn | exact Hinfo].
Defined.

Lemma list_returns_lines_witness :
  list_ (Demo.fresh (Demo.host_with [Ok Demo.receipts_with_blank_line]))
  = (Ok ["com.apple.pkg.Core"; ""; "com.example.tool"],
     State (Demo.host_with []) [listing]).
Proof.
  apply (list_returns_lines (World := script)
           (Demo.fresh (Demo.host_with [Ok Demo.receipts_with_blank_line]))
           Demo.receipts_with_blank_line (Demo.host_with [])).
  reflexivity.
Defined.

(** C3 as worded fails: a blank line of the output is an empty string of the
    result. *)
Lemma list_returns_nonempty_lines_fails :
  ~ list_returns_nonempty_lines
      (Demo.fresh (Demo.host_with [Ok Demo.receipts_with_blank_line])).
Proof.
  intros Hclaim.
  destruct (Hclaim Demo.receipts_with_blank_line (Demo.host_with []) ltac:(reflexivity))
    as [_ Hno].
  apply (Hno ["com.apple.pkg.Core"; ""; "com.example.tool"] ltac:(reflexivity)).
  refine (bool_decide_unpack _ _). vm_compute. exact I.
Qed.

Lemma install_time_result_witness :
  let st := Demo.fresh (Demo.host_with [Ok Demo.receipts; Ok Demo.tool_info]) in
  let st_bad := Demo.fresh (Demo.host_with [Ok Demo.receipts; Ok Demo.tool_info_bad_time]) in
  let st2 := State (Demo.host_with [])
               [listing; ExecuteReturnResult "pkgutil --pkg-info com.example.tool"] in
  install_time "com.example.tool" None st = (Ok (PyInt 1500000000), st2) /\
  install_time "com.example.tool" (Some true) st
  = (Ok (PyStr "2017-07-14 02:40:00"),
     State (Demo.host_with []) (calls st2 ++ [LocalTime 1500000000])) /\
  install_time "com.example.tool" None st_bad
  = (Raise (ValueError (InvalidIntLiteral " yesterday")), st2).
Proof.
  intros st st_bad st2.
  pose proof (install_time_result (World := script) "com.example.tool" st
                (Spec.mapping_of
                   [("package-id", " com.example.tool"); ("version", " 1.2.3");
                    ("volume", " /"); ("location", " /");
                    ("install-time", " 1500000000")])
                st2 " 1500000000") as Hgood.
  destruct Hgood as [Hint _]; [reflexivity | reflexivity |].
  destruct (Hint 1500000000) as (Hraw & _ & Hconv & _); [reflexivity|].
  split; [exact Hraw|]. split.
  - destruct (Hconv Demo.instant) as [Hstr _]; [reflexivity | exact Hstr].
  - pose proof (install_time_result (World := script) "com.example.tool" st_bad
                  (Spec.mapping_of [("version", " 1.2.3"); ("install-time", " yesterday")])
                  st2 " yesterday") as Hbad.
    destruct Hbad as [_ Hfail]; [reflexivity | reflexivity |].
    apply Hfail. reflexivity.
Defined.

(** C8 as worded fails: an install time in the year 10000 is printed with
    five digits for the year. *)
Lemma install_time_gives_timestamp_fails :
  ~ install_time_gives_timestamp "com.example.tool"
      (Demo.fresh (Future.host_with [Ok Demo.receipts; Ok Future.tool_info])).
Proof.
  intros Hclaim.
  destruct (Hclaim
              (Spec.mapping_of [("version", " 1.2.3"); ("install-time", " 253402300800")])
              (State (Future.host_with [])
                 [listing; ExecuteReturnResult "pkgutil --pkg-info com.example.tool"])
              " 253402300800" 253402300800 Future.instant)
    as (s & st3 & Hrun & Hshape); try reflexivity.
  assert (Hcode :
    install_time "com.example.tool" (Some true)
      (Demo.fresh (Future.host_with [Ok Demo.receipts; Ok Future.tool_info]))
    = (Ok (PyStr "10000-01-01 00:00:00"),
       State (Future.host_with [])
         [listing; ExecuteReturnResult "pkgutil --pkg-info com.example.tool";
          LocalTime 253402300800])) by reflexivity.
  rewrite Hcode in Hrun. injection Hrun as <- _.
  vm_compute in Hshape. discriminate Hshape.
Qed.


(** ** Further properties *)

Section Further.
Context `{Collaborators World}.
Implicit Types (st : state World) (h : World) (p source : string).

(** *** What the mapping of [info] holds *)

Lemma lookup_stored_pairs pairs : forall (d : gmap string string) key,
  foldl (fun d kv => <[kv.1 := kv.2]> d) d pairs !! key
  = match last_value key pairs with
    | Some v => Some v
    | None => d !! key
    end.
Proof.
  induction pairs as [|[k v] pairs IH]; intros d key; [reflexivity|].
  cbn [foldl last_value]. rewrite IH.
  destruct (last_value key pairs) as [v'|]; [reflexivity|].
  cbn [fst snd]. rewrite lookup_insert.
  destruct (decide (k = key)); reflexivity.
Qed.

Lemma info_well_formed p st out h1 text h2 :
  execute_return_result "pkgutil --pkgs" (host st) = (Ok out, h1) ->
  p ∈ Str.splitlines out ->
  execute_return_result ("pkgutil --pkg-info " +:+ p) h1 = (Ok text, h2) ->
  Forall (fun line => Str.count ":" line = 1%nat) (Str.splitlines text) ->
  info p st
  = (Ok (foldl (fun d kv => <[kv.1 := kv.2]> d) ∅ (entries text)),
     State h2 (calls st ++ [listing; ExecuteReturnResult ("pkgutil --pkg-info " +:+ p)])).
Proof.
  intros E Hin Hinfo Hall. rewrite (info_installed _ _ _ _ _ _ E Hin Hinfo).
  unfold dict, entries. now rewrite (dict_update_well_formed _ _ _ Hall).
Qed.

(** X1: for an installed [p] whose package-info output has one ':' on every
    line, the mapping that [info p] returns holds, under each key, the text
    after the colon of the last line that starts with that key, and nothing
    under a key that starts no line. *)
Theorem info_lookup_last_line p st out h1 text h2 :
  execute_return_result "pkgutil --pkgs" (host st) = (Ok out, h1) ->
  p ∈ Str.splitlines out ->
  execute_return_result ("pkgutil --pkg-info " +:+ p) h1 = (Ok text, h2) ->
  Forall (fun line => Str.count ":" line = 1%nat) (Str.splitlines text) ->
  exists d,
    info p st
    = (Ok d, State h2 (calls st ++
                [listing; ExecuteReturnResult ("pkgutil --pkg-info " +:+ p)])) /\
    forall key, d !! key = last_value key (entries text).
Proof.
  intros E Hin Hinfo Hall. eexists. split.
  - exact (info_well_formed _ _ _ _ _ _ E Hin Hinfo Hall).
  - intros key. rewrite lookup_stored_pairs, lookup_empty.
    now destruct (last_value key (entries text)).
Qed.

(** X2: on such a package, [version p] returns the text after the colon of
    the last "version" line exactly as printed (a space after the colon
    stays in front), and raises [KeyError] for "version" when no line has
    that key; both commands have run by then. *)
Theorem version_of_last_line p st out h1 text h2 :
  execute_return_result "pkgutil --pkgs" (host st) = (Ok out, h1) ->
  p ∈ Str.splitlines out ->
  execute_return_result ("pkgutil --pkg-info " +:+ p) h1 = (Ok text, h2) ->
  Forall (fun line => Str.count ":" line = 1%nat) (Str.splitlines text) ->
  version p st
  = (match last_value "version" (entries text) with
     | Some v => Ok v
     | None => Raise (KeyError "version")
     end,
     State h2 (calls st ++ [listing; ExecuteReturnResult ("pkgutil --pkg-info " +:+ p)])).
Proof.
  intros E Hin Hinfo Hall. unfold version.
  rewrite (bind_ok _ _ _ _ _ (info_well_formed _ _ _ _ _ _ E Hin Hinfo Hall)).
  unfold lift, getitem. rewrite lookup_stored_pairs, lookup_empty.
  now destruct (last_value "version" (entries text)).
Qed.

(** X3: on such a package whose output has no "install-time" line,
    [install_time p] raises [KeyError] for "install-time" whatever [convert]
    is, and the local time is never asked for. *)
Theorem install_time_missing_key p st out h1 text h2 convert :
  execute_return_result "pkgutil --pkgs" (host st) = (Ok out, h1) ->
  p ∈ Str.splitlines out ->
  execute_return_result ("pkgutil --pkg-info " +:+ p) h1 = (Ok text, h2) ->
  Forall (fun line => Str.count ":" line = 1%nat) (Str.splitlines text) ->
  last_value "install-time" (entries text) = None ->
  install_time p convert st
  = (Raise (KeyError "install-time"),
     State h2 (calls st ++ [listing; ExecuteReturnResult ("pkgutil --pkg-info " +:+ p)])).
Proof.
  intros E Hin Hinfo Hall Hnone. unfold install_time.
  rewrite (bind_ok _ _ _ _ _ (info_well_formed _ _ _ _ _ _ E Hin Hinfo Hall)).
  apply bind_raise. unfold lift, getitem.
  now rewrite lookup_stored_pairs, lookup_empty, Hnone.
Qed.

(** *** Failures of the collaborators *)

(** X4: when the listing command fails, every operation that starts with the
    listing ends with that same failure right after it: no package-info
    command, no parse of the source, no file-system check and no installer
    run follow. *)
Theorem listing_failure_stops p st e h1 :
  execute_return_result "pkgutil --pkgs" (host st) = (Raise e, h1) ->
  let st1 := State h1 (calls st ++ [listing]) in
  list_ st = (Raise e, st1) /\
  is_installed p st = (Raise e, st1) /\
  info p st = (Raise e, st1) /\
  version p st = (Raise e, st1) /\
  (forall convert, install_time p convert st = (Raise e, st1)) /\
  (forall source, install source p st = (Raise e, st1)).
Proof.
  intros E st1.
  assert (Hlist : list_ st = (Raise e, st1)) by exact (list_raise _ _ _ E).
  assert (Hinst : is_installed p st = (Raise e, st1))
    by (unfold is_installed; now rewrite (bind_raise _ _ _ _ _ Hlist)).
  assert (Hinfo : info p st = (Raise e, st1))
    by (unfold info; now rewrite (bind_raise _ _ _ _ _ Hinst)).
  repeat split; try assumption.
  - unfold version. now rewrite (bind_raise _ _ _ _ _ Hinfo).
  - intros convert. unfold install_time. now rewrite (bind_raise _ _ _ _ _ Hinfo).
  - intros source. unfold install. now rewrite (bind_raise _ _ _ _ _ Hinst).
Qed.

(** X5: when the receipt-removal command fails, [forget p] ends with that
    failure and does not look at the listing: it returns no boolean. *)
Theorem forget_command_failure p st e h1 :
  execute_return_success ("pkgutil --forget " +:+ p) (host st) = (Raise e, h1) ->
  forget p st
  = (Raise e, State h1 (calls st ++ [ExecuteReturnSuccess ("pkgutil --forget " +:+ p)])).
Proof.
  intros E. unfold forget.
  now rewrite (bind_raise _ _ _ _ _ (run_success_eq _ _ _ _ E)).
Qed.

Lemma install_reaches_path source p st out h1 :
  execute_return_result "pkgutil --pkgs" (host st) = (Ok out, h1) ->
  p ∉ Str.splitlines out ->
  uri_scheme source = Ok "" ->
  install source p st
  = bind (_install_from_path source) (fun _ => is_installed p)
      (State h1 (calls st ++ [listing; UrlParse source])).
Proof.
  intros E Hin Hs. unfold install at 1.
  rewrite (bind_ok _ _ _ _ _ (is_installed_false _ _ _ _ E Hin)).
  unfold bind at 1. unfold urlparse_scheme, logged. cbn. rewrite Hs. cbn.
  now rewrite <- app_assoc.
Qed.

(** X6: when the installer command fails on an existing path, [install] ends
    with that failure and does not take the listing again: it returns no
    boolean for a failed installer run. *)
Theorem install_installer_failure source p st out h1 e h2 :
  execute_return_result "pkgutil --pkgs" (host st) = (Ok out, h1) ->
  p ∉ Str.splitlines out ->
  uri_scheme source = Ok "" ->
  os_path_exists source h1 = true ->
  execute_return_success ("installer -pkg " +:+ source +:+ " -target /") h1
    = (Raise e, h2) ->
  install source p st
  = (Raise e,
     State h2 (calls st ++
       [listing; UrlParse source; PathExists source;
        ExecuteReturnSuccess ("installer -pkg " +:+ source +:+ " -target /")])).
Proof.
  intros E Hin Hs Hyes Hrun. rewrite (install_reaches_path _ _ _ _ _ E Hin Hs).
  unfold bind at 1. unfold _install_from_path, bind, path_exists, logged.
  cbn. rewrite Hyes. cbn. unfold run_success. cbn. rewrite Hrun.
  unfold logged. cbn. now rewrite <- !app_assoc.
Qed.

(** *** What the operations never run *)

Lemma is_installed_runs_listing p st :
  exists r h1, is_installed p st = (r, State h1 (calls st ++ [listing])).
Proof.
  destruct (execute_return_result "pkgutil --pkgs" (host st)) as [[out|e] h1] eqn:E.
  - eexists _, h1. exact (is_installed_ok _ _ _ _ E).
  - exists (Raise e), h1. unfold is_installed.
    now rewrite (bind_raise _ _ _ _ _ (list_raise _ _ _ E)).
Qed.

Lemma info_runs_two_queries p st :
  exists r h new,
    info p st = (r, State h (calls st ++ new)) /\
    ((new = [listing] /\ exists e, r = Raise e) \/
     new = [listing; ExecuteReturnResult ("pkgutil --pkg-info " +:+ p)]).
Proof.
  destruct (is_installed_runs_listing p st) as ([[|]|e] & h1 & Hinst).
  - destruct (execute_return_result ("pkgutil --pkg-info " +:+ p) h1)
      as [r h2] eqn:Hinfo.
    exists (match r with
            | Ok text => dict (Str.split ":" <$> Str.splitlines text)
            | Raise e => Raise e
            end), h2, [listing; ExecuteReturnResult ("pkgutil --pkg-info " +:+ p)].
    split; [|now right]. unfold info. rewrite (bind_ok _ _ _ _ _ Hinst).
    unfold bind, run_result, lift, logged. cbn. rewrite Hinfo. cbn.
    rewrite <- app_assoc. now destruct r.
  - eexists _, h1, [listing]. split.
    + unfold info. now rewrite (bind_ok _ _ _ _ _ Hinst).
    + left. split; [reflexivity|]. now eexists.
  - exists (Raise e), h1, [listing]. split.
    + unfold info. now rewrite (bind_raise _ _ _ _ _ Hinst).
    + left. split; [reflexivity|]. now eexists.
Qed.

(** X7: whatever the host answers, [info], [version] and [install_time] run
    the listing command and at most the package-info command after it, and
    nothing else, but for the one local-time lookup that [install_time] makes
    last when asked to convert: no installer run, no receipt removal, no
    file-system check. *)
Theorem queries_run_no_action p st :
  (exists new, calls (info p st).2 = calls st ++ new /\
     (new = [listing] \/
      new = [listing; ExecuteReturnResult ("pkgutil --pkg-info " +:+ p)])) /\
  (exists new, calls (version p st).2 = calls st ++ new /\
     (new = [listing] \/
      new = [listing; ExecuteReturnResult ("pkgutil --pkg-info " +:+ p)])) /\
  (forall convert,
     exists new, calls (install_time p convert st).2 = calls st ++ new /\
       (new = [listing] \/
        new = [listing; ExecuteReturnResult ("pkgutil --pkg-info " +:+ p)] \/
        exists n, convert = Some true /\
          new = [listing; ExecuteReturnResult ("pkgutil --pkg-info " +:+ p);
                 LocalTime n])).
Proof.
  destruct (info_runs_two_queries p st) as (r & h & new & Hinfo & Hnew).
  assert (Hshort : new = [listing] \/
            new = [listing; ExecuteReturnResult ("pkgutil --pkg-info " +:+ p)])
    by (destruct Hnew as [[-> _]| ->]; auto).
  split; [|split].
  - exists new. now rewrite Hinfo.
  - exists new. split; [|exact Hshort]. unfold version.
    destruct r as [d|e].
    + now rewrite (bind_ok _ _ _ _ _ Hinfo).
    + now rewrite (bind_raise _ _ _ _ _ Hinfo).
  - intros convert.
    assert (Hquiet : new = [listing] \/
              new = [listing; ExecuteReturnResult ("pkgutil --pkg-info " +:+ p)] \/
              exists n, convert = Some true /\
                new = [listing; ExecuteReturnResult ("pkgutil --pkg-info " +:+ p);
                       LocalTime n])
      by (destruct Hshort; auto).
    unfold install_time. destruct r as [d|e].
    2:{ exists new. now rewrite (bind_raise _ _ _ _ _ Hinfo). }
    rewrite (bind_ok _ _ _ _ _ Hinfo).
    unfold bind at 1, lift at 1. destruct (getitem d "install-time") as [text|e].
    2:{ exists new. split; [reflexivity | exact Hquiet]. }
    unfold bind at 1, lift at 1. destruct (int text) as [n|e].
    2:{ exists new. split; [reflexivity | exact Hquiet]. }
    destruct convert as [[|]|]; cbn [default negb].
    2,3: exists new; split; [reflexivity | exact Hquiet].
    destruct Hnew as [[_ [e He]]| ->]; [discriminate He|].
    eexists. split.
    + unfold bind, time_localtime, logged. cbn.
      destruct (localtime n h); cbn; rewrite <- app_assoc; reflexivity.
    + right. right. exists n. split; reflexivity.
Qed.

Ltac no_status_command :=
  let cmd := fresh "cmd" in
  let Hc := fresh "Hc" in
  intros cmd Hc; unfold listing in Hc;
  repeat (apply elem_of_cons in Hc as [Hc|Hc]; [discriminate Hc|]);
  now apply elem_of_nil in Hc.

(** X8: whatever the host answers, the only status command that
    [install source p] can run is the installer on [source], and it runs it
    only after the listing returned without [p], the source parsed with an
    empty scheme and the path was found to exist. *)
Theorem install_runs_installer_only_when_due source p st :
  exists new,
    calls (install source p st).2 = calls st ++ new /\
    forall cmd, (ExecuteReturnSuccess cmd ∈ new) ->
      cmd = "installer -pkg " +:+ source +:+ " -target /" /\
      exists out h1,
        execute_return_result "pkgutil --pkgs" (host st) = (Ok out, h1) /\
        (p ∉ Str.splitlines out) /\
        uri_scheme source = Ok "" /\
        os_path_exists source h1 = true.
Proof.
  destruct (execute_return_result "pkgutil --pkgs" (host st)) as [[out|e] h1] eqn:E.
  2:{ exists [listing]. split; [|no_status_command].
      unfold install, is_installed.
      now rewrite (bind_raise _ _ _ _ _ (bind_raise _ _ _ _ _ (list_raise _ _ _ E))). }
  destruct (decide (p ∈ Str.splitlines out)) as [Hin|Hin].
  { exists [listing]. split; [|no_status_command].
    unfold install. now rewrite (bind_ok _ _ _ _ _ (is_installed_true _ _ _ _ E Hin)). }
  destruct (uri_scheme source) as [scheme|e] eqn:Hs.
  2:{ exists [listing; UrlParse source]. split; [|no_status_command].
      unfold install. rewrite (bind_ok _ _ _ _ _ (is_installed_false _ _ _ _ E Hin)).
      unfold bind, urlparse_scheme, logged. cbn. rewrite Hs. cbn.
      now rewrite <- app_assoc. }
  destruct (decide (scheme = "")) as [->|Hne].
  2:{ exists [listing; UrlParse source]. split; [|no_status_command].
      unfold install. rewrite (bind_ok _ _ _ _ _ (is_installed_false _ _ _ _ E Hin)).
      unfold bind, urlparse_scheme, raise, logged. cbn. rewrite Hs.
      rewrite bool_decide_eq_false_2 by assumption. cbn.
      now rewrite <- app_assoc. }
  rewrite (install_reaches_path _ _ _ _ _ E Hin Hs).
  destruct (os_path_exists source h1) eqn:Hpath.
  2:{ exists [listing; UrlParse source; PathExists source]. split; [|no_status_command].
      unfold bind, _install_from_path, path_exists, raise, logged.
      cbn. rewrite Hpath. cbn. now rewrite <- app_assoc. }
  assert (Hdue : forall cmd rest,
    (ExecuteReturnSuccess cmd
       ∈ [listing; UrlParse source; PathExists source;
          ExecuteReturnSuccess ("installer -pkg " +:+ source +:+ " -target /")] ++ rest) ->
    (forall c, c ∈ rest -> c = listing) ->
    cmd = "installer -pkg " +:+ source +:+ " -target /" /\
    exists out h1,
      execute_return_result "pkgutil --pkgs" (host st) = (Ok out, h1) /\
      (p ∉ Str.splitlines out) /\
      uri_scheme source = Ok "" /\
      os_path_exists source h1 = true).
  { intros cmd rest Hc Hrest. split; [|now exists out, h1].
    cbn in Hc. unfold listing in Hc.
    repeat (apply elem_of_cons in Hc as [Hc|Hc]; [try discriminate Hc|]).
    - now injection Hc.
    - apply Hrest in Hc. discriminate Hc. }
  destruct (execute_return_success ("installer -pkg " +:+ source +:+ " -target /") h1)
    as [r0 h2] eqn:Hrun.
  assert (Hpathrun :
    _install_from_path source (State h1 (calls st ++ [listing; UrlParse source]))
    = (r0, State h2 (calls st ++
             [listing; UrlParse source; PathExists source;
              ExecuteReturnSuccess ("installer -pkg " +:+ source +:+ " -target /")]))).
  { unfold _install_from_path, bind, path_exists, logged.
    cbn. rewrite Hpath. cbn. unfold run_success. cbn. rewrite Hrun.
    unfold logged. cbn. now rewrite <- !app_assoc. }
  destruct r0 as [b|e].
  - destruct (is_installed_runs_listing p
                (State h2 (calls st ++
                   [listing; UrlParse source; PathExists source;
                    ExecuteReturnSuccess ("installer -pkg " +:+ source +:+ " -target /")])))
      as (r & h3 & Hagain).
    exists ([listing; UrlParse source; PathExists source;
             ExecuteReturnSuccess ("installer -pkg " +:+ source +:+ " -target /")]
            ++ [listing]).
    split.
    + rewrite (bind_ok _ _ _ _ _ Hpathrun), Hagain. cbn [snd calls].
      now rewrite <- app_assoc.
    + intros cmd Hc. destruct (Hdue cmd [listing] Hc) as [-> _].
      { intros c Hin'. apply elem_of_cons in Hin' as [->|Hin']; [reflexivity|].
        now apply elem_of_nil in Hin'. }
      split; [reflexivity|]. now exists out, h1.
  - exists [listing; UrlParse source; PathExists source;
            ExecuteReturnSuccess ("installer -pkg " +:+ source +:+ " -target /")].
    split.
    + now rewrite (bind_raise _ _ _ _ _ Hpathrun).
    + intros cmd Hc. destruct (Hdue cmd [] Hc) as [-> _].
      { intros c Hin'. now apply elem_of_nil in Hin'. }
      split; [reflexivity|]. now exists out, h1.
Qed.

(** *** What the mapping of [info] never holds *)

(** A text with neither a colon nor a line boundary in it. *)
Local Abbreviation plain :=
  (fun field : string =>
     Str.count ":" field = 0%nat /\ Str.any Str.is_linebreak field = false).

Lemma split_fields_plain line :
  Str.any Str.is_linebreak line = false -> Forall plain (Str.split ":" line).
Proof.
  induction line as [|c line IH]; intros Hline.
  - now repeat constructor.
  - cbn in Hline. apply orb_false_iff in Hline as [Hc Hline].
    specialize (IH Hline). cbn [Str.split].
    destruct (decide (c = ":"%char)) as [->|Hne].
    + constructor; [now split | exact IH].
    + assert (Hhead : forall field, plain field -> plain (String c field)).
      { intros field [Hcount Hbreak]. split; cbn.
        - destruct (decide (c = ":"%char)); [contradiction | assumption].
        - now rewrite Hc. }
      destruct (Str.split ":" line) as [|field fields].
      * constructor; [|constructor]. now apply Hhead.
      * inversion IH as [|? ? Hfield Hfields]; subst.
        constructor; [now apply Hhead | assumption].
Qed.

Lemma dict_update_keeps (P : string -> Prop) items : forall index d d',
  Forall (Forall P) items ->
  map_Forall (fun k v => P k /\ P v) d ->
  dict_update index items d = Ok d' ->
  map_Forall (fun k v => P k /\ P v) d'.
Proof.
  induction items as [|item items IH]; intros index d d' Hitems Hd Hrun.
  - cbn in Hrun. now injection Hrun as <-.
  - inversion Hitems as [|? ? Hitem Hrest]; subst.
    destruct item as [|k [|v [|x item]]]; cbn in Hrun; try discriminate Hrun.
    apply (IH _ _ _ Hrest) in Hrun; [assumption|].
    inversion Hitem as [|? ? Hk Hv']; subst. inversion Hv' as [|? ? Hv _]; subst.
    now apply map_Forall_insert_2.
Qed.

Lemma info_returned_by_dict p st d st' :
  info p st = (Ok d, st') ->
  exists text, dict (Str.split ":" <$> Str.splitlines text) = Ok d.
Proof.
  intros Hrun. unfold info in Hrun.
  destruct (is_installed_runs_listing p st) as ([[|]|e] & h1 & Hinst).
  - rewrite (bind_ok _ _ _ _ _ Hinst) in Hrun.
    unfold bind, run_result, lift in Hrun. cbn in Hrun.
    destruct (execute_return_result ("pkgutil --pkg-info " +:+ p) h1) as [[text|e] h2];
      cbn in Hrun; [|discriminate Hrun].
    exists text. now injection Hrun as ->.
  - rewrite (bind_ok _ _ _ _ _ Hinst) in Hrun. discriminate Hrun.
  - rewrite (bind_raise _ _ _ _ _ Hinst) in Hrun. discriminate Hrun.
Qed.

(** X9: in every mapping that [info] returns, no key and no value holds a
    colon or a line boundary. *)
Theorem info_fields_are_plain p st d st' key value :
  info p st = (Ok d, st') ->
  d !! key = Some value ->
  Str.count ":" key = 0%nat /\ Str.any Str.is_linebreak key = false /\
  Str.count ":" value = 0%nat /\ Str.any Str.is_linebreak value = false.
Proof.
  intros Hrun Hkey.
  destruct (info_returned_by_dict _ _ _ _ Hrun) as (text & Hdict).
  assert (Hall : map_Forall (fun k v => plain k /\ plain v) d).
  { apply (dict_update_keeps plain (Str.split ":" <$> Str.splitlines text) 0%nat ∅ d);
      [| apply map_Forall_empty | exact Hdict].
    apply Forall_fmap. eapply Forall_impl; [apply splitlines_no_linebreak|].
    intros line Hline. now apply split_fields_plain. }
  destruct (Hall key value Hkey) as [[? ?] [? ?]]. auto.
Qed.

(** *** Reading back a printed integer *)

Lemma app_assoc_string (s t u : string) : (s +:+ t) +:+ u = s +:+ (t +:+ u).
Proof. induction s as [|c s IH]; [reflexivity|]. now rewrite !app_cons, IH. Qed.

Lemma rev_app_spec s : forall acc, String.rev_app s acc = String.rev s +:+ acc.
Proof.
  unfold String.rev. induction s as [|c s IH]; intros acc; [reflexivity|].
  cbn [String.rev_app]. rewrite (IH (String c acc)), (IH (String c "")).
  now rewrite app_snoc_assoc.
Qed.

Lemma rev_app_distr_string s t : String.rev (s +:+ t) = String.rev t +:+ String.rev s.
Proof.
  induction s as [|c s IH].
  - change ("" +:+ t) with t. now rewrite app_nil_r.
  - rewrite app_cons. unfold String.rev at 1 3. cbn [String.rev_app].
    rewrite !rev_app_spec, IH. now rewrite app_assoc_string.
Qed.

Lemma rev_involutive_string s : String.rev (String.rev s) = s.
Proof.
  induction s as [|c s IH]; [reflexivity|].
  unfold String.rev at 2. cbn [String.rev_app].
  rewrite rev_app_spec, rev_app_distr_string, IH. reflexivity.
Qed.

Lemma any_app f s t : Str.any f (s +:+ t) = Str.any f s || Str.any f t.
Proof.
  induction s as [|c s IH]; [reflexivity|].
  rewrite app_cons. cbn [Str.any]. now rewrite IH, orb_assoc.
Qed.

Lemma any_rev f s : Str.any f (String.rev s) = Str.any f s.
Proof.
  induction s as [|c s IH]; [reflexivity|].
  unfold String.rev. cbn [String.rev_app]. rewrite rev_app_spec, any_app, IH.
  cbn [Str.any]. now rewrite orb_false_r, orb_comm.
Qed.

Lemma lstrip_blank ws s : blank ws = true -> Str.lstrip (ws +:+ s) = Str.lstrip s.
Proof.
  unfold blank. induction ws as [|c ws IH]; intros Hws; [reflexivity|].
  cbn [Str.any] in Hws. apply negb_true_iff, orb_false_iff in Hws as [Hc Hws].
  apply negb_false_iff in Hc. rewrite app_cons. cbn [Str.lstrip]. rewrite Hc.
  apply IH. now rewrite Hws.
Qed.

Lemma lstrip_no_space s :
  match s with
  | String c _ => Str.is_space c = false
  | "" => True
  end -> Str.lstrip s = s.
Proof. destruct s as [|c s]; [reflexivity|]. cbn. now intros ->. Qed.

Lemma lstrip_without_space s : Str.any Str.is_space s = false -> Str.lstrip s = s.
Proof.
  intros Hs. apply lstrip_no_space. destruct s as [|c s]; [exact I|].
  cbn in Hs. now apply orb_false_iff in Hs as [Hc _].
Qed.

Lemma blank_rev ws : blank (String.rev ws) = blank ws.
Proof. unfold blank. now rewrite any_rev. Qed.

Lemma strip_padded ws body ws' :
  blank ws = true -> blank ws' = true -> Str.any Str.is_space body = false ->
  Str.strip (ws +:+ body +:+ ws') = body.
Proof.
  intros Hws Hws' Hbody. unfold Str.strip, Str.rstrip.
  rewrite (lstrip_blank _ _ Hws).
  destruct body as [|c body].
  - change ("" +:+ ws') with ws'.
    rewrite <- (app_nil_r ws'), (lstrip_blank _ _ Hws'). reflexivity.
  - rewrite (lstrip_no_space (String c body +:+ ws')).
    2:{ rewrite app_cons. cbn [Str.any] in *.
        apply orb_false_iff in Hbody as [Hc _]. cbn [Str.lstrip]. now rewrite Hc. }
    rewrite rev_app_distr_string, lstrip_blank by now rewrite blank_rev.
    rewrite lstrip_without_space by now rewrite any_rev.
    apply rev_involutive_string.
Qed.

Lemma digit_cases d :
  0 <= d <= 9 ->
  d = 0 \/ d = 1 \/ d = 2 \/ d = 3 \/ d = 4 \/ d = 5 \/ d = 6 \/ d = 7 \/ d = 8 \/ d = 9.
Proof. lia. Qed.

Lemma digit_char_no_space d : 0 <= d <= 9 -> Str.is_space (Str.digit_char d) = false.
Proof.
  intros Hd. pose proof (digit_cases d Hd) as Hcases.
  repeat destruct Hcases as [->|Hcases]; try reflexivity. now subst.
Qed.

Lemma decimal_go_no_space fuel : forall n acc,
  0 <= n ->
  Str.any Str.is_space (Str.decimal_go fuel n acc) = Str.any Str.is_space acc.
Proof.
  induction fuel as [|fuel IH]; intros n acc Hn; [reflexivity|].
  rewrite decimal_go_step.
  assert (Hdigit : Str.is_space (Str.digit_char (n mod 10)) = false)
    by (apply digit_char_no_space; pose proof (Z.mod_pos_bound n 10); lia).
  destruct (n / 10 =? 0).
  - cbn [Str.any]. now rewrite Hdigit.
  - rewrite IH by (apply Z.div_pos; lia). cbn [Str.any]. now rewrite Hdigit.
Qed.

Lemma decimal_go_head fuel : forall n acc,
  0 <= n ->
  exists d rest, 0 <= d <= 9 /\
    Str.decimal_go (S fuel) n acc = String (Str.digit_char d) rest.
Proof.
  induction fuel as [|fuel IH]; intros n acc Hn; rewrite decimal_go_step.
  - exists (n mod 10), acc. split; [pose proof (Z.mod_pos_bound n 10); lia|].
    now destruct (n / 10 =? 0).
  - destruct (n / 10 =? 0).
    + exists (n mod 10), acc. split; [pose proof (Z.mod_pos_bound n 10); lia | reflexivity].
    + apply IH. apply Z.div_pos; lia.
Qed.

Lemma of_Z_no_space n : Str.any Str.is_space (Str.of_Z n) = false.
Proof.
  unfold Str.of_Z, Str.decimal. destruct (n <? 0) eqn:Hsign.
  - apply Z.ltb_lt in Hsign. cbn [Str.any]. now rewrite decimal_go_no_space by lia.
  - apply Z.ltb_ge in Hsign. now rewrite decimal_go_no_space by lia.
Qed.

Lemma parse_of_Z n :
  Str.count_digits (Str.of_Z n) <= Str.max_str_digits ->
  match Str.of_Z n with
  | String "-" body => Z.opp <$> Str.literal body
  | String "+" body => Str.literal body
  | body => Str.literal body
  end = Some n.
Proof.
  unfold Str.of_Z, Str.literal. destruct (n <? 0) eqn:Hsign; intros Hlimit.
  - apply Z.ltb_lt in Hsign. change (Str.count_digits (String "-" ?b))
      with (0 + Str.count_digits b) in Hlimit.
    rewrite (proj2 (Z.ltb_ge _ _)) by lia.
    rewrite digits_value_decimal by lia. cbn. f_equal. lia.
  - apply Z.ltb_ge in Hsign.
    assert (Hvalue : Str.literal (Str.decimal n) = Some n).
    { unfold Str.literal. rewrite (proj2 (Z.ltb_ge _ _)) by lia.
      now apply digits_value_decimal. }
    unfold Str.literal, Str.decimal in *.
    destruct (decimal_go_head (Z.to_nat (Z.log2 n)) n "" Hsign) as (d & rest & Hd & Hhead).
    rewrite Hhead in *. pose proof (digit_cases d Hd) as Hcases.
    repeat destruct Hcases as [->|Hcases]; try exact Hvalue. subst. exact Hvalue.
Qed.

Lemma parse_int_padded n ws ws' :
  blank ws = true -> blank ws' = true ->
  Str.count_digits (Str.of_Z n) <= Str.max_str_digits ->
  Str.parse_int (ws +:+ Str.of_Z n +:+ ws') = Some n.
Proof.
  intros Hws Hws' Hlimit. unfold Str.parse_int.
  rewrite (strip_padded _ _ _ Hws Hws' (of_Z_no_space n)).
  now apply parse_of_Z.
Qed.

(** X10: whatever whitespace surrounds it in the mapping (the space that the
    tool prints after the colon stays in the value), an "install-time" entry
    that holds the decimal print of an integer [n], of no more digits than
    [int] accepts, makes [install_time] without conversion return exactly
    [n]. *)
Theorem install_time_reads_printed_integer p st d st2 n ws ws' :
  info p st = (Ok d, st2) ->
  d !! "install-time" = Some (ws +:+ Str.of_Z n +:+ ws') ->
  blank ws = true ->
  blank ws' = true ->
  Str.count_digits (Str.of_Z n) <= Str.max_str_digits ->
  install_time p None st = (Ok (PyInt n), st2) /\
  install_time p (Some false) st = (Ok (PyInt n), st2).
Proof.
  intros Hinfo Hkey Hws Hws' Hlimit.
  assert (Hread : forall convert,
    negb (default false convert) = true ->
    install_time p convert st = (Ok (PyInt n), st2)).
  { intros convert Hraw. unfold install_time.
    rewrite (bind_ok _ _ _ _ _ Hinfo).
    unfold bind at 1, lift at 1, getitem. rewrite Hkey.
    unfold bind at 1, lift at 1, int.
    rewrite (parse_int_padded _ _ _ Hws Hws' Hlimit).
    now rewrite Hraw. }
  split; now apply Hread.
Qed.

(** *** Package ids that no listing can hold *)

Lemma is_installed_true_inv p st st' :
  is_installed p st = (Ok true, st') -> Str.any Str.is_linebreak p = false.
Proof.
  intros Hrun.
  destruct (execute_return_result "pkgutil --pkgs" (host st)) as [[out|e] h1] eqn:E.
  - rewrite (is_installed_ok _ _ _ _ E) in Hrun. injection Hrun as Hin _.
    apply bool_decide_eq_true in Hin.
    exact (proj1 (Forall_forall _ _) (splitlines_no_linebreak out) p Hin).
  - unfold is_installed in Hrun.
    rewrite (bind_raise _ _ _ _ _ (list_raise _ _ _ E)) in Hrun. discriminate Hrun.
Qed.

(** X11: a package id that holds a line boundary is never reported
    installed, whatever the host answers; so [info] never returns a mapping
    for it and [install] never returns [True] for it. *)
Theorem id_with_line_break_never_installed p st :
  Str.any Str.is_linebreak p = true ->
  (forall st', is_installed p st <> (Ok true, st')) /\
  (forall d st', info p st <> (Ok d, st')) /\
  (forall source st', install source p st <> (Ok true, st')).
Proof.
  intros Hbreak.
  assert (Hnever : forall st0 st', is_installed p st0 <> (Ok true, st')).
  { intros st0 st' Hrun. apply is_installed_true_inv in Hrun. congruence. }
  split; [apply Hnever|]. split.
  - intros d st' Hrun. unfold info, bind in Hrun.
    destruct (is_installed p st) as [[[|]|e] st1] eqn:Hinst.
    + exact (Hnever _ _ Hinst).
    + discriminate Hrun.
    + discriminate Hrun.
  - intros source st' Hrun. unfold install in Hrun. unfold bind at 1 in Hrun.
    destruct (is_installed p st) as [[[|]|e] st1] eqn:Hinst.
    + exact (Hnever _ _ Hinst).
    + unfold bind at 1 in Hrun.
      destruct (urlparse_scheme source st1) as [[scheme|e] st2]; [|discriminate Hrun].
      destruct (negb (bool_decide (scheme = ""))); [discriminate Hrun|].
      unfold bind in Hrun.
      destruct (_install_from_path source st2) as [[b|e] st3]; [|discriminate Hrun].
      exact (Hnever _ _ Hrun).
    + discriminate Hrun.
Qed.

(** *** The mapping of [info] against the lines it was read from *)

Lemma partition_colon_joins line :
  Str.count ":" line = 1%nat ->
  line = (Spec.partition_colon line).1 +:+ String ":" (Spec.partition_colon line).2.
Proof.
  induction line as [|c line IH]; [discriminate|]. cbn.
  destruct (decide (c = ":"%char)) as [->|Hne]; [reflexivity|].
  intros Hcount. specialize (IH Hcount).
  destruct (Spec.partition_colon line) as [k v]. cbn in *.
  rewrite app_cons. now f_equal.
Qed.

Lemma last_value_is_stored key value pairs :
  last_value key pairs = Some value -> (key, value) ∈ pairs.
Proof.
  induction pairs as [|[k v] pairs IH]; [discriminate|]. cbn.
  destruct (last_value key pairs) as [v'|].
  - intros [= ->]. right. now apply IH.
  - destruct (decide (k = key)) as [->|]; [|discriminate].
    intros [= ->]. now left.
Qed.

Lemma stored_has_last_value key value pairs :
  (key, value) ∈ pairs -> is_Some (last_value key pairs).
Proof.
  induction pairs as [|[k v] pairs IH]; intros Hin.
  - now apply elem_of_nil in Hin.
  - cbn. apply elem_of_cons in Hin as [[= <- <-]|Hin].
    + destruct (last_value key pairs); [now eexists|].
      destruct (decide (key = key)); [now eexists | contradiction].
    + destruct (IH Hin) as [v' ->]. now eexists.
Qed.

(** X12: for an installed [p] whose package-info output has one ':' on every
    line, the mapping that [info p] returns invents nothing and drops no key:
    each of its entries, written key, colon, value, is one of the lines of
    the output, and the text before the colon of every line is one of its
    keys. *)
Theorem info_entries_are_lines p st out h1 text h2 :
  execute_return_result "pkgutil --pkgs" (host st) = (Ok out, h1) ->
  p ∈ Str.splitlines out ->
  execute_return_result ("pkgutil --pkg-info " +:+ p) h1 = (Ok text, h2) ->
  Forall (fun line => Str.count ":" line = 1%nat) (Str.splitlines text) ->
  exists d,
    (info p st).1 = Ok d /\
    (forall key value, d !! key = Some value ->
       (key +:+ String ":" value) ∈ Str.splitlines text) /\
    (forall line, line ∈ Str.splitlines text ->
       is_Some (d !! (Spec.partition_colon line).1)).
Proof.
  intros E Hin Hinfo Hall. eexists. split.
  - now rewrite (info_well_formed _ _ _ _ _ _ E Hin Hinfo Hall).
  - assert (Hlookup : forall key,
      foldl (fun d kv => <[kv.1 := kv.2]> d) (∅ : gmap string string) (entries text) !! key
      = last_value key (entries text)).
    { intros key. rewrite lookup_stored_pairs, lookup_empty.
      now destruct (last_value key (entries text)). }
    split.
    + intros key value Hkey. rewrite Hlookup in Hkey.
      apply last_value_is_stored in Hkey. unfold entries in Hkey.
      apply list_elem_of_fmap in Hkey as (line & Hpair & Hline).
      pose proof (proj1 (Forall_forall _ _) Hall line Hline) as Hcount.
      pose proof (partition_colon_joins line Hcount) as Hjoin.
      rewrite <- Hpair in Hjoin. cbn [fst snd] in Hjoin. now rewrite <- Hjoin.
    + intros line Hline. rewrite Hlookup.
      apply (stored_has_last_value _ (Spec.partition_colon line).2).
      unfold entries. apply list_elem_of_fmap. exists line.
      split; [now destruct (Spec.partition_colon line) | exact Hline].
Qed.
End Further.

(** ** The further properties at work on scripted hosts *)

Lemma info_lookup_last_line_witness :
  exists d,
    info "com.example.tool"
      (Demo.fresh (Demo.host_with [Ok Demo.receipts; Ok Cases.info_with_two_versions]))
    = (Ok d, Cases.after_info "com.example.tool") /\
    d !! "version" = Some " 2.0" /\ d !! "volume" = Some " /" /\
    d !! "location" = None.
Proof.
  destruct (info_lookup_last_line (World := script) "com.example.tool"
              (Demo.fresh (Demo.host_with [Ok Demo.receipts; Ok Cases.info_with_two_versions]))
              Demo.receipts (Demo.host_with [Ok Cases.info_with_two_versions])
              Cases.info_with_two_versions (Demo.host_with []))
    as (d & Hrun & Hlookup).
  - reflexivity.
  - refine (bool_decide_unpack _ _). vm_compute. exact I.
  - reflexivity.
  - refine (bool_decide_unpack _ _). vm_compute. exact I.
  - exists d. split; [exact Hrun|]. rewrite !Hlookup. repeat split; reflexivity.
Defined.

Lemma version_of_last_line_witness :
  version "com.example.tool"
    (Demo.fresh (Demo.host_with [Ok Demo.receipts; Ok Cases.info_with_two_versions]))
  = (Ok " 2.0", Cases.after_info "com.example.tool") /\
  version "com.example.tool"
    (Demo.fresh (Demo.host_with [Ok Demo.receipts; Ok Cases.info_with_volume_only]))
  = (Raise (KeyError "version"), Cases.after_info "com.example.tool").
Proof.
  split.
  - apply (version_of_last_line (World := script) "com.example.tool"
             (Demo.fresh (Demo.host_with [Ok Demo.receipts; Ok Cases.info_with_two_versions]))
             Demo.receipts (Demo.host_with [Ok Cases.info_with_two_versions])
             Cases.info_with_two_versions (Demo.host_with [])).
    + reflexivity.
    + refine (bool_decide_unpack _ _). vm_compute. exact I.
    + reflexivity.
    + refine (bool_decide_unpack _ _). vm_compute. exact I.
  - apply (version_of_last_line (World := script) "com.example.tool"
             (Demo.fresh (Demo.host_with [Ok Demo.receipts; Ok Cases.info_with_volume_only]))
             Demo.receipts (Demo.host_with [Ok Cases.info_with_volume_only])
             Cases.info_with_volume_only (Demo.host_with [])).
    + reflexivity.
    + refine (bool_decide_unpack _ _). vm_compute. exact I.
    + reflexivity.
    + refine (bool_decide_unpack _ _). vm_compute. exact I.
Defined.

Lemma install_time_missing_key_witness :
  install_time "com.example.tool" (Some true)
    (Demo.fresh (Demo.host_with [Ok Demo.receipts; Ok Cases.info_with_volume_only]))
  = (Raise (KeyError "install-time"), Cases.after_info "com.example.tool").
Proof.
  apply (install_time_missing_key (World := script) "com.example.tool"
           (Demo.fresh (Demo.host_with [Ok Demo.receipts; Ok Cases.info_with_volume_only]))
           Demo.receipts (Demo.host_with [Ok Cases.info_with_volume_only])
           Cases.info_with_volume_only (Demo.host_with []) (Some true)).
  - reflexivity.
  - refine (bool_decide_unpack _ _). vm_compute. exact I.
  - reflexivity.
  - refine (bool_decide_unpack _ _). vm_compute. exact I.
  - reflexivity.
Defined.

Lemma listing_failure_stops_witness :
  info "com.example.tool" (Demo.fresh Cases.host_without_listing)
  = (Raise command_failed, State (Demo.host_with []) [listing]) /\
  install "/tmp/new.pkg" "com.example.tool" (Demo.fresh Cases.host_without_listing)
  = (Raise command_failed, State (Demo.host_with []) [listing]).
Proof.
  destruct (listing_failure_stops (World := script) "com.example.tool"
              (Demo.fresh Cases.host_without_listing) command_failed (Demo.host_with []))
    as (_ & _ & Hinfo & _ & _ & Hinstall).
  - reflexivity.
  - split; [exact Hinfo | exact (Hinstall "/tmp/new.pkg")].
Defined.

Lemma forget_command_failure_witness :
  forget "com.example.tool" (Demo.fresh Cases.host_failing_action)
  = (Raise command_failed,
     State (Script [Ok Demo.receipts; Ok Demo.receipts] [] ["/tmp/new.pkg"] Demo.clock)
       [ExecuteReturnSuccess "pkgutil --forget com.example.tool"]).
Proof.
  apply (forget_command_failure (World := script) "com.example.tool"
           (Demo.fresh Cases.host_failing_action) command_failed
           (Script [Ok Demo.receipts; Ok Demo.receipts] [] ["/tmp/new.pkg"] Demo.clock)).
  reflexivity.
Defined.

Lemma install_installer_failure_witness :
  install "/tmp/new.pkg" "com.example.new" (Demo.fresh Cases.host_failing_action)
  = (Raise command_failed,
     State (Script [Ok Demo.receipts] [] ["/tmp/new.pkg"] Demo.clock)
       [listing; UrlParse "/tmp/new.pkg"; PathExists "/tmp/new.pkg";
        ExecuteReturnSuccess "installer -pkg /tmp/new.pkg -target /"]).
Proof.
  apply (install_installer_failure (World := script) "/tmp/new.pkg" "com.example.new"
           (Demo.fresh Cases.host_failing_action) Demo.receipts
           (Script [Ok Demo.receipts] [Raise command_failed] ["/tmp/new.pkg"] Demo.clock)
           command_failed
           (Script [Ok Demo.receipts] [] ["/tmp/new.pkg"] Demo.clock)).
  - reflexivity.
  - refine (proj1 (bool_decide_eq_false _) _). vm_compute. reflexivity.
  - reflexivity.
  - reflexivity.
  - reflexivity.
Defined.

Lemma info_fields_are_plain_witness :
  Str.count ":" "install-time" = 0%nat /\
  Str.any Str.is_linebreak "install-time" = false /\
  Str.count ":" " 1500000000" = 0%nat /\
  Str.any Str.is_linebreak " 1500000000" = false.
Proof.
  apply (info_fields_are_plain (World := script) "com.example.tool"
           (Demo.fresh (Demo.host_with [Ok Demo.receipts; Ok Demo.tool_info]))
           (Spec.mapping_of
              [("package-id", " com.example.tool"); ("version", " 1.2.3");
               ("volume", " /"); ("location", " /"); ("install-time", " 1500000000")])
           (Cases.after_info "com.example.tool")).
  - reflexivity.
  - reflexivity.
Defined.

Lemma install_time_reads_printed_integer_witness :
  install_time "com.example.tool" None
    (Demo.fresh (Demo.host_with [Ok Demo.receipts; Ok Demo.tool_info]))
  = (Ok (PyInt 1500000000), Cases.after_info "com.example.tool").
Proof.
  apply (install_time_reads_printed_integer (World := script) "com.example.tool"
           (Demo.fresh (Demo.host_with [Ok Demo.receipts; Ok Demo.tool_info]))
           (Spec.mapping_of
              [("package-id", " com.example.tool"); ("version", " 1.2.3");
               ("volume", " /"); ("location", " /"); ("install-time", " 1500000000")])
           (Cases.after_info "com.example.tool") 1500000000 " " "").
  - reflexivity.
  - reflexivity.
  - reflexivity.
  - reflexivity.
  - vm_compute. discriminate.
Defined.

Lemma id_with_line_break_never_installed_witness :
  is_installed Cases.id_with_line_feed (Demo.fresh (Demo.host_with [Ok Demo.receipts]))
  <> (Ok true, State (Demo.host_with []) [listing]) /\
  install "/tmp/new.pkg" Cases.id_with_line_feed
    (Demo.fresh (Demo.host_with [Ok Demo.receipts; Ok Demo.receipts_after_install]))
  <> (Ok true,
      State (Script [] [] ["/tmp/new.pkg"] Demo.clock)
        [listing; UrlParse "/tmp/new.pkg"; PathExists "/tmp/new.pkg";
         ExecuteReturnSuccess "installer -pkg /tmp/new.pkg -target /"; listing]).
Proof.
  split.
  - apply (id_with_line_break_never_installed (World := script) Cases.id_with_line_feed
             (Demo.fresh (Demo.host_with [Ok Demo.receipts]))).
    reflexivity.
  - apply (id_with_line_break_never_installed (World := script) Cases.id_with_line_feed
             (Demo.fresh (Demo.host_with [Ok Demo.receipts; Ok Demo.receipts_after_install]))).
    reflexivity.
Defined.

Lemma info_entries_are_lines_witness :
  exists d,
    (info "com.example.tool"
       (Demo.fresh (Demo.host_with [Ok Demo.receipts; Ok Demo.tool_info]))).1 = Ok d /\
    (d !! "version" = Some " 1.2.3" -> "version: 1.2.3" ∈ Str.splitlines Demo.tool_info).
Proof.
  destruct (info_entries_are_lines (World := script) "com.example.tool"
              (Demo.fresh (Demo.host_with [Ok Demo.receipts; Ok Demo.tool_info]))
              Demo.receipts (Demo.host_with [Ok Demo.tool_info])
              Demo.tool_info (Demo.host_with []))
    as (d & Hrun & Hsound & _).
  - reflexivity.
  - refine (bool_decide_unpack _ _). vm_compute. exact I.
  - reflexivity.
  - refine (bool_decide_unpack _ _). vm_compute. exact I.
  - exists d. split; [exact Hrun|]. exact (Hsound "version" " 1.2.3").
Defined.
